(** * A shallow embedding of the news-driven trading notebook

    The notebook defines five small Python classes: [MarketDataFetcher],
    [NewsFetcher], [SentimentAnalyzer], [SentimentStrategy] (a backtrader
    strategy) and [TradeExecutor] (a wrapper of the Alpaca REST client).
    This development embeds the parts of them that the notebook itself
    defines:

    - [MarketDataFetcher.fetch_historical_data] and [fetch_realtime_data],
      one request to Yahoo Finance each;
    - [NewsFetcher.fetch_news], one request to the news service;
    - [SentimentAnalyzer.analyze_sentiment], a pass-through to the Hugging
      Face pipeline;
    - [SentimentStrategy.next], which fetches the latest news, signs the
      score of the first headline and buys or sells on a fixed threshold;
    - [TradeExecutor.place_order], which submits an order through the
      Alpaca REST client, itself re-posting after a 429 or 504 reply, and
      swallows every [Exception];
    - [main], which downloads a year of prices, fetches the news and
      analyses every title.

    [TradingStrategy] is left out: it consists of calls into pandas and
    scikit-learn.

    Python floats are IEEE binary64 numbers and are embedded as Rocq's
    primitive floats; negation and comparison are the machine operations.
    Python exceptions and the effects on the outside world (the news
    service, the backtest engine's order list, the broker, standard
    output) are threaded explicitly through a state-and-exception monad in
    which the state survives a raised exception, as it does in Python. *)

From Stdlib Require Import Floats ZArith List String Bool Lia PeanoNat.
Import ListNotations.

#[local] Open Scope string_scope.
#[local] Open Scope list_scope.

(* ================================================================== *)
(** * Python: exceptions and effectful computations *)
(* ================================================================== *)

Module Py.

(** The exception classes that can reach the notebook's code.  All of them
    derive from [Exception] except the last two, which derive from
    [BaseException] only. *)
Inductive exn_class : Type :=
| IndexError
| KeyError
| TypeError
| ValueError
| ConnectionError
| ReadTimeout
| APIError
| NewsAPIException
| KeyboardInterrupt
| SystemExit.

Record exn : Type := Exn { exn_type : exn_class; exn_args : string }.

(** [isinstance(e, Exception)]. *)
Definition derives_from_Exception (c : exn_class) : bool :=
  match c with
  | KeyboardInterrupt | SystemExit => false
  | _ => true
  end.

(** [str(e)], as interpolated by an f-string. *)
Definition str (e : exn) : string := exn_args e.

Inductive result (A : Type) : Type :=
| Ok (a : A)
| Raised (e : exn).
Arguments Ok {A} a.
Arguments Raised {A} e.

(** A computation over a world of type [W]: it returns or raises, and in
    both cases leaves a world behind. *)
Definition M (W A : Type) : Type := W -> result A * W.

Definition ret {W A} (a : A) : M W A := fun w => (Ok a, w).

Definition raise {W A} (e : exn) : M W A := fun w => (Raised e, w).

Definition bind {W A B} (c : M W A) (k : A -> M W B) : M W B :=
  fun w =>
    match c w with
    | (Ok a, w') => k a w'
    | (Raised e, w') => (Raised e, w')
    end.

(** [try: body  except Exception as e: handler e].  An exception that does
    not derive from [Exception] is not caught. *)
Definition try_except_Exception {W A}
    (body : M W A) (handler : exn -> M W A) : M W A :=
  fun w =>
    match body w with
    | (Ok a, w') => (Ok a, w')
    | (Raised e, w') =>
        if derives_from_Exception (exn_type e) then handler e w'
        else (Raised e, w')
    end.

(** [l[i]] on a list. *)
Definition getitem {W A} (l : list A) (i : nat) : M W A :=
  match nth_error l i with
  | Some x => ret x
  | None => raise (Exn IndexError "list index out of range")
  end.

Definition outcome {W A} (r : result A * W) : result A := fst r.
Definition world {W A} (r : result A * W) : W := snd r.

End Py.

Import Py.

Declare Scope py_scope.
Delimit Scope py_scope with py.
Notation "x <- c ;; k" := (bind c (fun x => k))
  (at level 61, c at next level, right associativity) : py_scope.
Notation "c ;;; k" := (bind c (fun _ => k))
  (at level 61, right associativity) : py_scope.
#[local] Open Scope py_scope.

(* ================================================================== *)
(** * Sentiment analysis: [SentimentAnalyzer] *)
(* ================================================================== *)

(** One entry of the list a Hugging Face text-classification pipeline
    returns: [{'label': ..., 'score': ...}]. *)
Record Prediction : Type := { label : string; score : float }.

(** [SentimentAnalyzer]: the pipeline is the loaded model, a callable from
    a text to a list of predictions.  It is external to the notebook and is
    taken as a parameter of the object. *)
Record SentimentAnalyzer : Type := {
  model_name : string;
  sentiment_pipeline : string -> list Prediction
}.

(** [SentimentAnalyzer.analyze_sentiment]:
    [return self.sentiment_pipeline(text)]. *)
Definition analyze_sentiment {W} (self : SentimentAnalyzer) (text : string)
  : M W (list Prediction) :=
  ret (sentiment_pipeline self text).

(** The local [sentiment_score] of [SentimentStrategy.next], for the first
    prediction [p = sentiment[0]]:
    [p['score'] if p['label'] == 'positive' else -p['score']]. *)
Definition sentiment_score (p : Prediction) : float :=
  if String.eqb (label p) "positive" then score p else (- score p)%float.

(* ================================================================== *)
(** * Backtesting: [NewsFetcher] and [SentimentStrategy] *)
(* ================================================================== *)

Module Backtesting.

Record Article : Type := {
  source : string;
  title : string;
  publishedAt : string
}.

(** The keyword arguments of [NewsApiClient.get_everything], with the key
    the client was built with. *)
Record NewsRequest : Type := {
  api_key : string;
  q : string;
  sources : string;
  language : string;
  sort_by : string
}.

Record NewsResponse : Type := {
  status : string;
  totalResults : nat;
  articles : list Article
}.

(** One OHLCV bar of the data feed. *)
Record Bar : Type := {
  datetime : Z;
  open : float;
  high : float;
  low : float;
  close : float;
  volume : Z
}.

Inductive Side : Type := Buy | Sell.

(** The world a strategy runs in.  [news_service n r] is what the news
    service answers to the [n]-th request it receives when that request is
    [r]: the service is live, so its answer depends on when it is asked.
    [bar] is the bar the engine is currently on and [orders] the orders the
    strategy has created with [self.buy()] and [self.sell()], oldest
    first. *)
Record World : Type := {
  news_service : nat -> NewsRequest -> result NewsResponse;
  news_served : nat;
  bar : option Bar;
  orders : list Side
}.

Record NewsApiClient : Type := { client_key : string }.

(** [NewsApiClient.get_everything]: one request to the service. *)
Definition get_everything (c : NewsApiClient)
    (q sources language sort_by : string) : M World NewsResponse :=
  fun w =>
    (news_service w (news_served w)
       {| api_key := client_key c; q := q; sources := sources;
          language := language; sort_by := sort_by |},
     {| news_service := news_service w;
        news_served := S (news_served w);
        bar := bar w;
        orders := orders w |}).

Record NewsFetcher : Type := { newsapi : NewsApiClient }.

(** [NewsFetcher.__init__]. *)
Definition NewsFetcher_init (api_key : string) : NewsFetcher :=
  {| newsapi := {| client_key := api_key |} |}.

(** [NewsFetcher.fetch_news(query, sources, language)]. *)
Definition fetch_news (self : NewsFetcher) (query sources language : string)
  : M World (list Article) :=
  all_articles <- get_everything (newsapi self) query sources language
                    "publishedAt" ;;
  ret (articles all_articles).

(** The defaults of [fetch_news]. *)
Definition default_sources : string := "reuters,bloomberg".
Definition default_language : string := "en".

(** [SentimentStrategy]: the two attributes set by [__init__].  The
    strategy has no other attribute of its own. *)
Record SentimentStrategy : Type := {
  sentiment_analyzer : SentimentAnalyzer;
  news_fetcher : NewsFetcher
}.

(** [bt.Strategy.buy()] and [bt.Strategy.sell()] with no argument: an
    order of the default size on the strategy's data feed. *)
Definition create_order (s : Side) : M World unit :=
  fun w =>
    (Ok tt,
     {| news_service := news_service w;
        news_served := news_served w;
        bar := bar w;
        orders := orders w ++ [s] |}).

Definition buy : M World unit := create_order Buy.
Definition sell : M World unit := create_order Sell.

(** [SentimentStrategy.next]. *)
Definition next (self : SentimentStrategy) : M World unit :=
  articles <- fetch_news (news_fetcher self) "Brent Oil"
                default_sources default_language ;;
  match articles with
  | [] => ret tt
  | _ :: _ =>
      article <- getitem articles 0 ;;
      sentiment <- analyze_sentiment (sentiment_analyzer self)
                     (title article) ;;
      p <- getitem sentiment 0 ;;
      let sentiment_score := sentiment_score p in
      if (0.5 <? sentiment_score)%float then buy
      else if (sentiment_score <? -0.5)%float then sell
      else ret tt
  end.

(** The engine moves to the next bar of the feed. *)
Definition advance (b : Bar) : M World unit :=
  fun w =>
    (Ok tt,
     {| news_service := news_service w;
        news_served := news_served w;
        bar := Some b;
        orders := orders w |}).

(** [cerebro.run()] as far as the strategy is concerned: the engine calls
    [next] once per bar of the feed, in order, and an exception raised by
    [next] ends the run. *)
Fixpoint cerebro_run (strategy : SentimentStrategy) (data : list Bar)
  : M World unit :=
  match data with
  | [] => ret tt
  | b :: rest =>
      advance b ;;; next strategy ;;; cerebro_run strategy rest
  end.

End Backtesting.

(* ================================================================== *)
(** * Trade execution: [TradeExecutor] *)
(* ================================================================== *)

Module Execution.

(** The keyword arguments of [REST.submit_order].  [place_order] passes
    the first five; the client's optional [client_order_id] defaults to
    [None]. *)
Record OrderRequest : Type := {
  symbol : string;
  qty : Z;
  side : string;
  type : string;
  time_in_force : string;
  client_order_id : option string
}.

(** The order entity the broker returns: the identifier it assigned and the
    request it was created from. *)
Record Order : Type := { id : nat; request : OrderRequest }.

(** The calls of the REST client that reach the broker.  The notebook makes
    only the first. *)
Inductive ApiCall : Type :=
| SubmitOrder (r : OrderRequest)
| GetOrderByClientOrderId (c : string)
| CancelOrder (order_id : nat).

(** What happens to the POST whose reply the client hands to its caller: it
    is acknowledged, or the client raises [e]; in the second case the order
    was [created] at the broker (the reply was lost) or not (the request was
    refused or never arrived). *)
Inductive Fate : Type :=
| Acked
| Failed (created : bool) (e : exn).

(** A reply the REST client keeps to itself: HTTP 429 (too many requests)
    or 504 (gateway timeout).  After such a reply the client waits and posts
    the same request again.  A 504 may come after the broker has [created]
    the order. *)
Inductive Retried : Type :=
| TooManyRequests
| GatewayTimeout (created : bool).

(** The world an executor runs in.  For the coming calls of the client,
    [network] gives the fate of the reply the client hands to its caller (an
    exhausted list means every further one is acknowledged) and [gateway] the
    429 and 504 replies that come before it and that the client answers by
    posting again (an exhausted list means none; the client's retry limit,
    three unless the environment says otherwise, bounds their number, and a
    429 or 504 beyond it is the reply handed to the caller).  [book] is the
    broker's book of live orders, [calls] the calls the broker's API has
    received, and [stdout] the lines printed on standard output. *)
Record World : Type := {
  network : list Fate;
  gateway : list (list Retried);
  book : list Order;
  calls : list ApiCall;
  stdout : list string
}.

Record REST : Type := {
  key_id : string;
  secret_key : string;
  base_url : string;
  api_version : string
}.

Definition client_id_used (c : option string) (b : list Order) : bool :=
  match c with
  | None => false
  | Some c =>
      existsb (fun o => match client_order_id (request o) with
                        | Some c' => String.eqb c c'
                        | None => false
                        end) b
  end.

Definition created_by (x : Retried) : bool :=
  match x with
  | TooManyRequests => false
  | GatewayTimeout created => created
  end.

(** One POST of [r] reaches the broker's API, and the order is [created]
    or not.  The broker creates a new order for every request it accepts. *)
Definition post (r : OrderRequest) (created : bool) (w : World) : World :=
  {| network := network w;
     gateway := gateway w;
     book := if created
             then book w ++ [ {| id := List.length (book w); request := r |} ]
             else book w;
     calls := calls w ++ [SubmitOrder r];
     stdout := stdout w |}.

(** The POSTs the client makes before the last one of a call: one for each
    reply it retries.  A request that carries a [client_order_id] already in
    the book creates no order. *)
Fixpoint repost (r : OrderRequest) (replies : list Retried) (w : World)
  : World :=
  match replies with
  | [] => w
  | x :: rest =>
      repost r rest
        (post r (created_by x
                 && negb (client_id_used (client_order_id r) (book w))) w)
  end.

(** [REST.submit_order]: the client posts the request, posts it again
    after each 429 or 504 reply it retries, and returns or raises on the
    reply to its last POST.  The broker refuses a request that carries a
    [client_order_id] already in its book. *)
Definition submit_order (api : REST) (r : OrderRequest) : M World Order :=
  fun w =>
    let w' := repost r (hd [] (gateway w)) w in
    let order := {| id := List.length (book w'); request := r |} in
    let received (created : bool) :=
      {| network := tl (network w);
         gateway := tl (gateway w);
         book := if created then book w' ++ [order] else book w';
         calls := calls w' ++ [SubmitOrder r];
         stdout := stdout w' |} in
    if client_id_used (client_order_id r) (book w') then
      (Raised (Exn APIError "client_order_id must be unique"), received false)
    else
      match hd Acked (network w) with
      | Acked => (Ok order, received true)
      | Failed created e => (Raised e, received created)
      end.

(** [print(line)]. *)
Definition print (line : string) : M World unit :=
  fun w =>
    (Ok tt,
     {| network := network w;
        gateway := gateway w;
        book := book w;
        calls := calls w;
        stdout := stdout w ++ [line] |}).

Record TradeExecutor : Type := { api : REST }.

(** [TradeExecutor.__init__], with its default [base_url]. *)
Definition default_base_url : string := "https://paper-api.alpaca.markets".

Definition TradeExecutor_init (api_key api_secret base_url : string)
  : TradeExecutor :=
  {| api := {| key_id := api_key; secret_key := api_secret;
               base_url := base_url; api_version := "v2" |} |}.

(** [TradeExecutor.place_order(symbol, qty, side, type, time_in_force)]:
    the order on success, [None] after printing the error otherwise. *)
Definition place_order (self : TradeExecutor)
    (symbol : string) (qty : Z) (side type time_in_force : string)
  : M World (option Order) :=
  try_except_Exception
    (order <- submit_order (api self)
                {| symbol := symbol; qty := qty; side := side; type := type;
                   time_in_force := time_in_force;
                   client_order_id := None |} ;;
     ret (Some order))
    (fun e =>
       print ("Error placing order: " ++ str e) ;;;
       ret None).

End Execution.

(* ================================================================== *)
(** * Vocabulary of the statements *)
(* ================================================================== *)

Module Backtest.
Import Backtesting.

(** The request [next] sends to the news service on every call. *)
Definition brent_request (self : SentimentStrategy) : NewsRequest :=
  {| api_key := client_key (newsapi (news_fetcher self));
     q := "Brent Oil";
     sources := default_sources;
     language := default_language;
     sort_by := "publishedAt" |}.

(** The world once the news service has answered one more request. *)
Definition served (w : World) : World :=
  {| news_service := news_service w;
     news_served := S (news_served w);
     bar := bar w;
     orders := orders w |}.

(** Two worlds in which the news service gives the same answers from now
    on, whatever else differs between them. *)
Definition same_news (w1 w2 : World) : Prop :=
  forall k r,
    news_service w1 (news_served w1 + k) r =
    news_service w2 (news_served w2 + k) r.

(** The signed score of [p] is beyond one of the two thresholds of
    [next]. *)
Definition crosses (p : Prediction) : bool :=
  (0.5 <? sentiment_score p)%float || (sentiment_score p <? -0.5)%float.

(** The [n]-th answer of the service to the strategy leads with a headline
    whose signed score is beyond a threshold. *)
Definition crossing_at (self : SentimentStrategy) (w : World) (n : nat)
  : Prop :=
  exists resp a rest p ps,
    news_service w n (brent_request self) = Ok resp /\
    articles resp = a :: rest /\
    sentiment_pipeline (sentiment_analyzer self) (title a) = p :: ps /\
    crosses p = true.

(** The orders the strategy has created by the end of a run of the
    engine. *)
Definition intents (strategy : SentimentStrategy) (data : list Bar)
    (w : World) : list Side :=
  orders (world (cerebro_run strategy data w)).

End Backtest.

Module Desk.
Import Execution.

(** The request [place_order] sends: its five arguments and no
    [client_order_id]. *)
Definition sent (symbol : string) (qty : Z) (side type time_in_force : string)
  : OrderRequest :=
  {| symbol := symbol; qty := qty; side := side; type := type;
     time_in_force := time_in_force; client_order_id := None |}.

(** The world when the client makes the last POST of its coming call for
    [r]: the POSTs it retried have reached the broker. *)
Definition retried (r : OrderRequest) (w : World) : World :=
  repost r (hd [] (gateway w)) w.

(** The order the broker creates for [r] on that last POST. *)
Definition new_order (r : OrderRequest) (w : World) : Order :=
  {| id := List.length (book (retried r w)); request := r |}.

(** The world once the broker's API has received that last POST, the order
    being [created] or not. *)
Definition received (r : OrderRequest) (created : bool) (w : World) : World :=
  {| network := tl (network w);
     gateway := tl (gateway w);
     book := if created then book (retried r w) ++ [new_order r w]
             else book (retried r w);
     calls := calls (retried r w) ++ [SubmitOrder r];
     stdout := stdout (retried r w) |}.

(** The line [place_order] prints for the exception [e]. *)
Definition error_line (e : exn) : string := "Error placing order: " ++ str e.

(** Every coming submission is acknowledged on its first POST. *)
Definition all_acked (w : World) : Prop :=
  Forall (fun f => f = Acked) (network w) /\
  Forall (fun replies => replies = []) (gateway w).

(** A caller of the executor that places the same order [n] times in a row
    and keeps the return values, as a retry loop around [place_order]
    does. *)
Fixpoint place_orders (self : TradeExecutor) (n : nat)
    (symbol : string) (qty : Z) (side type time_in_force : string)
  : M World (list (option Order)) :=
  match n with
  | O => ret []
  | S n' =>
      o <- place_order self symbol qty side type time_in_force ;;
      os <- place_orders self n' symbol qty side type time_in_force ;;
      ret (o :: os)
  end.

End Desk.

(* ================================================================== *)
(** * Scenarios *)
(* ================================================================== *)

Module Scenario.
Import Backtesting.

(** A stand-in for the FinBERT pipeline on four headlines: one prediction
    per text, with a label among positive, negative and neutral and the
    probability of that label. *)
Definition headlines (text : string) : list Prediction :=
  if String.eqb text "Brent rallies on supply cut" then
    [ {| label := "positive"; score := 0.9375 |} ]
  else if String.eqb text "Brent slumps as demand fades" then
    [ {| label := "negative"; score := 0.875 |} ]
  else if String.eqb text "OPEC ministers meet on Thursday" then
    [ {| label := "neutral"; score := 0.75 |} ]
  else
    [ {| label := "neutral"; score := 0.5 |} ].

Definition analyzer : SentimentAnalyzer :=
  {| model_name := "ProsusAI/finbert"; sentiment_pipeline := headlines |}.

Definition strategy : SentimentStrategy :=
  {| sentiment_analyzer := analyzer;
     news_fetcher := NewsFetcher_init "news-key" |}.

Definition article (headline : string) : Article :=
  {| source := "reuters"; title := headline;
     publishedAt := "2023-03-01T09:00:00Z" |}.

Definition answer (l : list Article) : result NewsResponse :=
  Ok {| status := "ok"; totalResults := List.length l; articles := l |}.

(** The service on a day of good news, on a day with no news, and on a day
    whose only headline is neutral. *)
Definition rally_service (n : nat) (r : NewsRequest) : result NewsResponse :=
  answer [article "Brent rallies on supply cut"].

Definition quiet_service (n : nat) (r : NewsRequest) : result NewsResponse :=
  answer [].

Definition meeting_service (n : nat) (r : NewsRequest)
  : result NewsResponse :=
  answer [article "OPEC ministers meet on Thursday"].

Definition start (service : nat -> NewsRequest -> result NewsResponse)
  : World :=
  {| news_service := service; news_served := 0; bar := None; orders := [] |}.

(** The service when the news turns with every request: good, bad, good,
    bad, ... *)
Definition choppy_service (n : nat) (r : NewsRequest)
  : result NewsResponse :=
  if Nat.even n then answer [article "Brent rallies on supply cut"]
  else answer [article "Brent slumps as demand fades"].

(** Four consecutive one-minute bars of a falling market. *)
Definition falling : list Bar :=
  [ {| datetime := 1; open := 84; high := 84.5; low := 81.5; close := 82;
       volume := 1000 |};
    {| datetime := 2; open := 82; high := 82.5; low := 79.5; close := 80;
       volume := 1200 |};
    {| datetime := 3; open := 80; high := 80.5; low := 77.5; close := 78;
       volume := 900 |};
    {| datetime := 4; open := 78; high := 78.5; low := 75.5; close := 76;
       volume := 1100 |} ].

(** The same four minutes in a rising market. *)
Definition rising : list Bar :=
  [ {| datetime := 1; open := 76; high := 78.5; low := 75.5; close := 78;
       volume := 1000 |};
    {| datetime := 2; open := 78; high := 80.5; low := 77.5; close := 80;
       volume := 1200 |};
    {| datetime := 3; open := 80; high := 82.5; low := 79.5; close := 82;
       volume := 900 |};
    {| datetime := 4; open := 82; high := 84.5; low := 81.5; close := 84;
       volume := 1100 |} ].

(** An executor on the paper-trading endpoint, and a broker with an empty
    book facing the given fates. *)
Definition executor : Execution.TradeExecutor :=
  Execution.TradeExecutor_init "key" "secret" Execution.default_base_url.

Definition broker (fates : list Execution.Fate) : Execution.World :=
  {| Execution.network := fates;
     Execution.gateway := [];
     Execution.book := [];
     Execution.calls := [];
     Execution.stdout := [] |}.

Definition timeout : exn := Exn ReadTimeout "Read timed out.".

Definition interrupt : exn := Exn KeyboardInterrupt "".

End Scenario.

(* ================================================================== *)
(** * Market data: [MarketDataFetcher] *)
(* ================================================================== *)

Module MarketData.

(** A data frame as the notebook sees it: a table it passes on untouched. *)
Record DataFrame : Type := {
  columns : list string;
  index : list string;
  values : list (list float)
}.

(** The two requests the notebook makes to Yahoo Finance:
    [yf.download(tickers, start=, end=, interval=)] and
    [yf.Ticker(ticker).history(period=, interval=)]. *)
Inductive YahooCall : Type :=
| Download (tickers : list string) (start end_ interval : string)
| History (ticker period interval : string).

(** The world a fetcher runs in: what Yahoo answers to the [n]-th request
    it receives, and the requests it has received so far, oldest first. *)
Record World : Type := {
  yahoo : nat -> YahooCall -> result DataFrame;
  yahoo_calls : list YahooCall
}.

(** One request to Yahoo. *)
Definition request (c : YahooCall) : M World DataFrame :=
  fun w =>
    (yahoo w (List.length (yahoo_calls w)) c,
     {| yahoo := yahoo w; yahoo_calls := yahoo_calls w ++ [c] |}).

Record MarketDataFetcher : Type := { tickers : list string }.

(** [MarketDataFetcher.__init__]. *)
Definition MarketDataFetcher_init (tickers : list string)
  : MarketDataFetcher :=
  {| tickers := tickers |}.

(** The default [interval] of [fetch_historical_data]. *)
Definition default_interval : string := "1d".

(** [MarketDataFetcher.fetch_historical_data(start_date, end_date,
    interval)]. *)
Definition fetch_historical_data (self : MarketDataFetcher)
    (start_date end_date interval : string) : M World DataFrame :=
  data <- request (Download (tickers self) start_date end_date interval) ;;
  ret data.

(** [MarketDataFetcher.fetch_realtime_data()]: [self.tickers[0]] is
    evaluated first, then the history of that ticker is requested. *)
Definition fetch_realtime_data (self : MarketDataFetcher)
  : M World DataFrame :=
  ticker <- getitem (tickers self) 0 ;;
  data <- request (History ticker "1d" "1m") ;;
  ret data.

End MarketData.

(* ================================================================== *)
(** * The application: [main] *)
(* ================================================================== *)

Module Application.

(** The three names [main] imports from [utils.config]. *)
Record Config : Type := {
  NEWS_API_KEY : string;
  ALPACA_API_KEY : string;
  ALPACA_SECRET_KEY : string
}.

(** The world of the application: Yahoo, the news service with the
    backtest engine, and the broker with standard output. *)
Record World : Type := {
  market : MarketData.World;
  news : Backtesting.World;
  desk : Execution.World
}.

(** A computation of one component, run in the world of the
    application. *)
Definition on_market {A} (c : M MarketData.World A) : M World A :=
  fun w =>
    let (r, m) := c (market w) in
    (r, {| market := m; news := news w; desk := desk w |}).

Definition on_news {A} (c : M Backtesting.World A) : M World A :=
  fun w =>
    let (r, n) := c (news w) in
    (r, {| market := market w; news := n; desk := desk w |}).

Definition on_desk {A} (c : M Execution.World A) : M World A :=
  fun w =>
    let (r, d) := c (desk w) in
    (r, {| market := market w; news := news w; desk := d |}).

(** The list comprehension [[f(x) for x in l]]. *)
Fixpoint comprehension {W A B} (f : A -> M W B) (l : list A)
  : M W (list B) :=
  match l with
  | [] => ret []
  | x :: rest =>
      y <- f x ;;
      ys <- comprehension f rest ;;
      ret (y :: ys)
  end.

(** The default [model_name] of [SentimentAnalyzer.__init__]. *)
Definition default_model_name : string := "ProsusAI/finbert".

(** The two library constructors behind the objects [main] builds, which
    can fail: [transformers.pipeline(task, model=)] loads the model and
    returns the callable, and [tradeapi.REST(key, secret, base_url,
    api_version=)] checks the credentials. *)
Record Libraries : Type := {
  pipeline : string -> string -> result (string -> list Prediction);
  REST : string -> string -> string -> string -> result Execution.REST
}.

(** A library call that touches nothing of the world. *)
Definition library {W A} (r : result A) : M W A := fun w => (r, w).

(** [SentimentAnalyzer(model_name)]: [__init__] loads the pipeline. *)
Definition new_SentimentAnalyzer {W} (lib : Libraries) (model_name : string)
  : M W SentimentAnalyzer :=
  loaded <- library (pipeline lib "sentiment-analysis" model_name) ;;
  ret {| model_name := model_name; sentiment_pipeline := loaded |}.

(** [TradeExecutor(api_key, api_secret, base_url)]: [__init__] builds the
    REST client. *)
Definition new_TradeExecutor {W} (lib : Libraries)
    (api_key api_secret base_url : string) : M W Execution.TradeExecutor :=
  client <- library (REST lib api_key api_secret base_url "v2") ;;
  ret {| Execution.api := client |}.

(** The body of [main] up to its last statement, with the three values it
    has computed by then.  Articles are those of [Backtesting], whose title
    is a string, and the loaded pipeline is total on strings, as in
    [SentimentAnalyzer]. *)
Definition main_locals (config : Config) (lib : Libraries)
  : M World (MarketData.DataFrame * list Backtesting.Article
             * list (list Prediction)) :=
  let market_fetcher := MarketData.MarketDataFetcher_init ["BZ=F"] in
  let news_fetcher := Backtesting.NewsFetcher_init (NEWS_API_KEY config) in
  sentiment_analyzer <- new_SentimentAnalyzer lib default_model_name ;;
  trade_executor <-
    new_TradeExecutor lib (ALPACA_API_KEY config) (ALPACA_SECRET_KEY config)
      Execution.default_base_url ;;
  historical_data <-
    on_market (MarketData.fetch_historical_data market_fetcher
                 "2023-01-01" "2023-12-31" MarketData.default_interval) ;;
  articles <-
    on_news (Backtesting.fetch_news news_fetcher "Brent Oil"
               Backtesting.default_sources Backtesting.default_language) ;;
  sentiments <-
    comprehension
      (fun article =>
         analyze_sentiment sentiment_analyzer (Backtesting.title article))
      articles ;;
  ret (historical_data, articles, sentiments).

(** [main()]: the values are dropped and [None] is returned. *)
Definition main (config : Config) (lib : Libraries) : M World unit :=
  main_locals config lib ;;; ret tt.

(** The two requests [main] makes. *)
Definition brent_download : MarketData.YahooCall :=
  MarketData.Download ["BZ=F"] "2023-01-01" "2023-12-31" "1d".

Definition brent_news (config : Config) : Backtesting.NewsRequest :=
  {| Backtesting.api_key := NEWS_API_KEY config;
     Backtesting.q := "Brent Oil";
     Backtesting.sources := Backtesting.default_sources;
     Backtesting.language := Backtesting.default_language;
     Backtesting.sort_by := "publishedAt" |}.

End Application.

(* ================================================================== *)
(** * Further scenarios *)
(* ================================================================== *)

Module Cases.

(** A frame of two daily closes. *)
Definition frame : MarketData.DataFrame :=
  {| MarketData.columns := ["Close"];
     MarketData.index := ["2023-01-03"; "2023-01-04"];
     MarketData.values := [[82]; [80]]%float |}.

(** Yahoo answering every request with that frame. *)
Definition yahoo_up (n : nat) (c : MarketData.YahooCall)
  : result MarketData.DataFrame := Ok frame.

Definition yahoo_world
    (y : nat -> MarketData.YahooCall -> result MarketData.DataFrame)
  : MarketData.World :=
  {| MarketData.yahoo := y; MarketData.yahoo_calls := [] |}.

(** The news service refusing the key. *)
Definition refusing_service (n : nat) (r : Backtesting.NewsRequest)
  : result Backtesting.NewsResponse :=
  Raised (Exn NewsAPIException "apiKeyInvalid").

(** A pipeline that is undecided about every text and one whose score is
    not a number. *)
Definition undecided (text : string) : list Prediction :=
  [ {| label := "negative"; score := 0.5 |} ].

Definition broken (text : string) : list Prediction :=
  [ {| label := "positive"; score := nan |} ].

Definition strategy_with (pipeline : string -> list Prediction)
  : Backtesting.SentimentStrategy :=
  {| Backtesting.sentiment_analyzer :=
       {| model_name := "ProsusAI/finbert"; sentiment_pipeline := pipeline |};
     Backtesting.news_fetcher := Backtesting.NewsFetcher_init "news-key" |}.

(** A broker with an empty book behind a busy gateway: the client's coming
    call meets the [replies] it retries and then the fate [f]. *)
Definition congested (replies : list Execution.Retried) (f : Execution.Fate)
  : Execution.World :=
  {| Execution.network := [f];
     Execution.gateway := [replies];
     Execution.book := [];
     Execution.calls := [];
     Execution.stdout := [] |}.



Definition config : Application.Config :=
  {| Application.NEWS_API_KEY := "news-key";
     Application.ALPACA_API_KEY := "key";
     Application.ALPACA_SECRET_KEY := "secret" |}.

(** The libraries: the loader returns the stand-in of [Scenario], and the
    REST constructor refuses an empty key or secret. *)
Definition libraries : Application.Libraries :=
  {| Application.pipeline := fun task model_name => Ok Scenario.headlines;
     Application.REST := fun key secret url version =>
       if String.eqb key "" || String.eqb secret "" then
         Raised (Exn ValueError
                   "Key ID must be given to access Alpaca trade API")
       else
         Ok {| Execution.key_id := key; Execution.secret_key := secret;
               Execution.base_url := url;
               Execution.api_version := version |} |}.

(** A configuration whose Alpaca key was left empty. *)
Definition keyless : Application.Config :=
  {| Application.NEWS_API_KEY := "news-key";
     Application.ALPACA_API_KEY := "";
     Application.ALPACA_SECRET_KEY := "secret" |}.

Definition application
    (y : nat -> MarketData.YahooCall -> result MarketData.DataFrame)
    (service : nat -> Backtesting.NewsRequest
               -> result Backtesting.NewsResponse)
  : Application.World :=
  {| Application.market := yahoo_world y;
     Application.news := Scenario.start service;
     Application.desk := Scenario.broker [] |}.

End Cases.

(* ================================================================== *)
(** * Order of binary64 floats under negation *)
(* ================================================================== *)

(** Case analysis on the IEEE class and sign of [x], under the hypothesis
    [H] that compares [x] with a literal: the classes [H] excludes are
    discarded and the goal is evaluated on the others. *)
Ltac float_cases x H :=
  rewrite ?ltb_spec, ?leb_spec, ?opp_spec in H;
  rewrite ?ltb_spec, ?leb_spec, ?opp_spec;
  destruct (Prim2SF x) as [[|] | [|] | | [|] ? ?];
  try (vm_compute in H; discriminate H);
  vm_compute; reflexivity.

Section FloatOrder.

(** Comparing two negated floats is comparing them the other way round;
    this holds for zeros, infinities and NaN as well. *)
Lemma SFcompare_opp (a b : spec_float) :
  SFcompare (SFopp a) (SFopp b) = SFcompare b a.
Proof.
  destruct a as [sa | sa | | sa ma ea], b as [sb | sb | | sb mb eb];
    simpl; try reflexivity;
    try (destruct sa; reflexivity); try (destruct sb; reflexivity);
    try (destruct sa, sb; reflexivity).
  destruct sa, sb; simpl; try reflexivity;
    rewrite (Z.compare_antisym ea eb);
    destruct (ea ?= eb)%Z; simpl; try reflexivity.
  - f_equal. symmetry. apply (Pos.compare_cont_antisym mb ma Eq).
  - f_equal. apply (Pos.compare_cont_antisym ma mb Eq).
Qed.

Lemma ltb_opp (x y : float) : (- x <? - y)%float = (y <? x)%float.
Proof.
  rewrite !ltb_spec, !opp_spec. unfold SFltb.
  rewrite SFcompare_opp. reflexivity.
Qed.

Lemma leb_opp (x y : float) : (- x <=? - y)%float = (y <=? x)%float.
Proof.
  rewrite !leb_spec, !opp_spec. unfold SFleb.
  rewrite SFcompare_opp. reflexivity.
Qed.

(** The literals [-0.5] and [-1] are the negations of [0.5] and [1]. *)
Lemma minus_half : (-0.5)%float = PrimFloat.opp 0.5.
Proof. reflexivity. Qed.

Lemma minus_one : (-1)%float = PrimFloat.opp 1.
Proof. reflexivity. Qed.

End FloatOrder.

Section Thresholds.

Variable s : float.

Lemma above_half_opp_below :
  (0.5 <? s)%float = true -> (- s <? -0.5)%float = true.
Proof. intros H. rewrite minus_half, ltb_opp. exact H. Qed.

Lemma above_half_opp_not_above :
  (0.5 <? s)%float = true -> (0.5 <? - s)%float = false.
Proof. intros H. float_cases s H. Qed.

Lemma probability_above_minus_one :
  (0 <=? s)%float = true -> (-1 <=? s)%float = true.
Proof. intros H. float_cases s H. Qed.

Lemma opp_probability_below_one :
  (0 <=? s)%float = true -> (- s <=? 1)%float = true.
Proof. intros H. float_cases s H. Qed.

Lemma opp_probability_above_minus_one :
  (s <=? 1)%float = true -> (-1 <=? - s)%float = true.
Proof. intros H. rewrite minus_one, leb_opp. exact H. Qed.

End Thresholds.

(* ================================================================== *)
(** * The strategy *)
(* ================================================================== *)

Module StrategyFacts.
Import Backtesting Backtest.

(** One call of [next], case by case on what the service and the pipeline
    answer. *)
Lemma next_cases (self : SentimentStrategy) (w : World) :
  next self w =
  match news_service w (news_served w) (brent_request self) with
  | Raised e => (Raised e, served w)
  | Ok resp =>
      match articles resp with
      | [] => (Ok tt, served w)
      | a :: _ =>
          match sentiment_pipeline (sentiment_analyzer self) (title a) with
          | [] =>
              (Raised (Exn IndexError "list index out of range"), served w)
          | p :: _ =>
              if (0.5 <? sentiment_score p)%float then
                create_order Buy (served w)
              else if (sentiment_score p <? -0.5)%float then
                create_order Sell (served w)
              else (Ok tt, served w)
          end
      end
  end.
Proof.
  unfold next, fetch_news, get_everything, bind, brent_request, served,
    buy, sell.
  cbn [ret].
  destruct (news_service w (news_served w) _) as [resp | e];
    [ | reflexivity ].
  destruct (articles resp) as [ | a rest ]; [ reflexivity | ].
  unfold getitem, analyze_sentiment; cbn [nth_error ret].
  destruct (sentiment_pipeline (sentiment_analyzer self) (title a))
    as [ | p ps ]; [ reflexivity | ].
  unfold ret.
  destruct (0.5 <? sentiment_score p)%float; [ reflexivity | ].
  destruct (sentiment_score p <? -0.5)%float; reflexivity.
Qed.

(** [next] asks the service exactly once and touches neither the service
    nor the current bar. *)
Lemma next_frame (self : SentimentStrategy) (w : World) :
  news_service (world (next self w)) = news_service w /\
  news_served (world (next self w)) = S (news_served w) /\
  bar (world (next self w)) = bar w.
Proof.
  rewrite next_cases.
  destruct (news_service w (news_served w) _) as [resp | e];
    [ | repeat split ].
  destruct (articles resp) as [ | a rest ]; [ repeat split | ].
  destruct (sentiment_pipeline _ _) as [ | p ps ]; [ repeat split | ].
  destruct (0.5 <? sentiment_score p)%float; [ repeat split | ].
  destruct (sentiment_score p <? -0.5)%float; repeat split.
Qed.

(** Orders are only ever appended. *)
Lemma next_appends (self : SentimentStrategy) (w : World) :
  exists new, orders (world (next self w)) = orders w ++ new /\
              (List.length new <= 1)%nat.
Proof.
  rewrite next_cases.
  destruct (news_service w (news_served w) _) as [resp | e].
  2: { exists []. rewrite app_nil_r. split; [ reflexivity | simpl; lia ]. }
  destruct (articles resp) as [ | a rest ].
  { exists []. rewrite app_nil_r. split; [ reflexivity | simpl; lia ]. }
  destruct (sentiment_pipeline _ _) as [ | p ps ].
  { exists []. rewrite app_nil_r. split; [ reflexivity | simpl; lia ]. }
  destruct (0.5 <? sentiment_score p)%float.
  { exists [Buy]. split; [ reflexivity | simpl; lia ]. }
  destruct (sentiment_score p <? -0.5)%float.
  { exists [Sell]. split; [ reflexivity | simpl; lia ]. }
  exists []. rewrite app_nil_r. split; [ reflexivity | simpl; lia ].
Qed.

(** The engine's loop, one bar at a time. *)
Lemma cerebro_run_cons (self : SentimentStrategy) (b : Bar)
    (rest : list Bar) (w : World) :
  cerebro_run self (b :: rest) w =
  match next self (world (advance b w)) with
  | (Ok _, w') => cerebro_run self rest w'
  | (Raised e, w') => (Raised e, w')
  end.
Proof. reflexivity. Qed.

Lemma same_news_advance (b1 b2 : Bar) (w1 w2 : World) :
  same_news w1 w2 -> same_news (world (advance b1 w1)) (world (advance b2 w2)).
Proof. intros H k r. apply (H k r). Qed.

(** Worlds in which the service answers alike and the strategy has created
    the same orders stay so across one call of [next], which also ends the
    same way in both. *)
Lemma next_same_news (self : SentimentStrategy) (w1 w2 : World) :
  same_news w1 w2 -> orders w1 = orders w2 ->
  outcome (next self w1) = outcome (next self w2) /\
  orders (world (next self w1)) = orders (world (next self w2)) /\
  same_news (world (next self w1)) (world (next self w2)).
Proof.
  intros Hnews Hord.
  assert (Hfuture : same_news (world (next self w1)) (world (next self w2))).
  { intros k r.
    destruct (next_frame self w1) as (-> & -> & _).
    destruct (next_frame self w2) as (-> & -> & _).
    rewrite !Nat.add_succ_l, <- !Nat.add_succ_r. apply Hnews. }
  split; [ | split; [ | exact Hfuture ] ].
  all: rewrite !next_cases.
  all: generalize (Hnews 0%nat (brent_request self)).
  all: rewrite !Nat.add_0_r; intros <-.
  all: destruct (news_service w1 (news_served w1) _) as [resp | e];
       [ | first [ reflexivity | exact Hord ] ].
  all: destruct (articles resp) as [ | a rest ];
       [ first [ reflexivity | exact Hord ] | ].
  all: destruct (sentiment_pipeline _ _) as [ | p ps ];
       [ first [ reflexivity | exact Hord ] | ].
  all: destruct (0.5 <? sentiment_score p)%float;
       [ first [ reflexivity | cbn; now rewrite Hord ] | ].
  all: destruct (sentiment_score p <? -0.5)%float;
       first [ reflexivity | exact Hord | cbn; now rewrite Hord ].
Qed.

(** Across a whole run: when the service answers alike in two worlds, the
    two runs end the same way with the same orders, bar for bar, whatever
    the bars contain. *)
Lemma cerebro_run_same_news (self : SentimentStrategy) (data1 : list Bar) :
  forall (data2 : list Bar) (w1 w2 : World),
    List.length data1 = List.length data2 ->
    same_news w1 w2 -> orders w1 = orders w2 ->
    outcome (cerebro_run self data1 w1) = outcome (cerebro_run self data2 w2) /\
    orders (world (cerebro_run self data1 w1)) =
    orders (world (cerebro_run self data2 w2)).
Proof.
  induction data1 as [ | b1 rest1 IH ]; intros [ | b2 rest2 ] w1 w2 Hlen Hnews Hord;
    try discriminate Hlen.
  - split; [ reflexivity | exact Hord ].
  - rewrite !cerebro_run_cons.
    destruct (next_same_news self (world (advance b1 w1)) (world (advance b2 w2)))
      as (Hout & Hord' & Hnews');
      [ apply same_news_advance; exact Hnews | exact Hord | ].
    destruct (next self (world (advance b1 w1))) as [[[] | e1] w1'],
             (next self (world (advance b2 w2))) as [[[] | e2] w2'];
      cbn [outcome world fst snd] in Hout, Hord', Hnews';
      try discriminate Hout.
    + apply IH; [ now injection Hlen | exact Hnews' | exact Hord' ].
    + split; [ exact Hout | exact Hord' ].
Qed.

(** C1, as amended: the orders of a run are determined by the strategy,
    the number of bars and the answers the news service gives during the
    run.  Two runs of the same strategy over feeds of the same length, from
    worlds that hold the same orders and in which the service answers every
    coming request alike, end the same way and create the same orders, even
    when the bars of the two feeds differ. *)
Theorem run_determined_by_news_answers
    (self : SentimentStrategy) (data1 data2 : list Bar) (w1 w2 : World) :
  List.length data1 = List.length data2 ->
  same_news w1 w2 ->
  orders w1 = orders w2 ->
  outcome (cerebro_run self data1 w1) = outcome (cerebro_run self data2 w2) /\
  intents self data1 w1 = intents self data2 w2.
Proof.
  intros Hlen Hnews Hord. unfold intents.
  apply cerebro_run_same_news; assumption.
Qed.

(** The theorem at work: the falling and the rising market, with the same
    good news, give the same four orders. *)
Lemma run_determined_by_news_answers_witness :
  outcome (cerebro_run Scenario.strategy Scenario.falling
             (Scenario.start Scenario.rally_service)) =
  outcome (cerebro_run Scenario.strategy Scenario.rising
             (Scenario.start Scenario.rally_service)) /\
  intents Scenario.strategy Scenario.falling
    (Scenario.start Scenario.rally_service) =
  intents Scenario.strategy Scenario.rising
    (Scenario.start Scenario.rally_service).
Proof.
  apply (run_determined_by_news_answers Scenario.strategy
           Scenario.falling Scenario.rising
           (Scenario.start Scenario.rally_service)
           (Scenario.start Scenario.rally_service)).
  - reflexivity.
  - intros k r. reflexivity.
  - reflexivity.
Defined.

(** C1, as stated, fails: the orders are not a function of the bars and the
    configuration alone.  The same strategy over the same four bars, from
    two worlds that hold the same orders and stand on the same bar, creates
    four orders when the news service reports a rally and none when it has
    nothing to report. *)
Lemma replay_and_live_orders_differ :
  ~ (forall (self : SentimentStrategy) (data : list Bar) (w1 w2 : World),
       orders w1 = orders w2 -> bar w1 = bar w2 ->
       news_served w1 = news_served w2 ->
       intents self data w1 = intents self data w2).
Proof.
  intros H.
  specialize (H Scenario.strategy Scenario.falling
                (Scenario.start Scenario.rally_service)
                (Scenario.start Scenario.quiet_service)
                eq_refl eq_refl eq_refl).
  vm_compute in H. discriminate H.
Qed.

(** C5, as amended: on every call, [next] decides on the signed score of
    the first headline alone.  When the service answers with no article it
    creates no order; when the first headline's first prediction is [p] it
    creates a buy if the signed score of [p] is above 0.5, a sell if it is
    below -0.5 and nothing otherwise.  The current bar and the orders created
    before play no part, and no average of past scores is kept. *)
Theorem next_decides_on_first_headline_alone
    (self : SentimentStrategy) (w : World) (resp : NewsResponse) :
  news_service w (news_served w) (brent_request self) = Ok resp ->
  outcome (next self w) =
    match articles resp with
    | [] => Ok tt
    | a :: _ =>
        match sentiment_pipeline (sentiment_analyzer self) (title a) with
        | [] => Raised (Exn IndexError "list index out of range")
        | _ :: _ => Ok tt
        end
    end /\
  orders (world (next self w)) =
    orders w ++
    match articles resp with
    | [] => []
    | a :: _ =>
        match sentiment_pipeline (sentiment_analyzer self) (title a) with
        | [] => []
        | p :: _ =>
            if (0.5 <? sentiment_score p)%float then [Buy]
            else if (sentiment_score p <? -0.5)%float then [Sell]
            else []
        end
    end.
Proof.
  intros Hresp. rewrite next_cases, Hresp.
  destruct (articles resp) as [ | a rest ].
  { split; [ reflexivity | cbn; now rewrite app_nil_r ]. }
  destruct (sentiment_pipeline _ _) as [ | p ps ].
  { split; [ reflexivity | cbn; now rewrite app_nil_r ]. }
  destruct (0.5 <? sentiment_score p)%float.
  { split; reflexivity. }
  destruct (sentiment_score p <? -0.5)%float.
  { split; reflexivity. }
  split; [ reflexivity | cbn; now rewrite app_nil_r ].
Qed.

(** The theorem at work on the first minute of the falling market: the
    rally headline alone makes the strategy buy. *)
Lemma next_decides_on_first_headline_alone_witness :
  outcome (next Scenario.strategy (Scenario.start Scenario.rally_service))
  = Ok tt /\
  orders (world (next Scenario.strategy
                   (Scenario.start Scenario.rally_service))) = [Buy].
Proof.
  exact (next_decides_on_first_headline_alone Scenario.strategy
           (Scenario.start Scenario.rally_service)
           {| status := "ok"; totalResults := 1;
              articles := [Scenario.article "Brent rallies on supply cut"] |}
           eq_refl).
Defined.

(** C5, as stated, fails: the score alone triggers an order, and the order
    is repeated while the strategy is already long.  Over four bars that
    each close below the one before, with the same good headline at every
    bar, the strategy buys four times in a row. *)
Lemma buys_on_score_alone_and_again :
  intents Scenario.strategy Scenario.falling
    (Scenario.start Scenario.rally_service) = [Buy; Buy; Buy; Buy] /\
  map close Scenario.falling = [82; 80; 78; 76]%float /\
  (76 <? 78)%float = true /\ (78 <? 80)%float = true /\
  (80 <? 82)%float = true.
Proof. repeat split. Qed.

(** The only bound on the number of orders: at most one per bar. *)
Lemma cerebro_run_at_most_one_order_per_bar
    (self : SentimentStrategy) (data : list Bar) :
  forall w : World,
    (List.length (intents self data w)
     <= List.length (orders w) + List.length data)%nat.
Proof.
  unfold intents.
  induction data as [ | b rest IH ]; intros w.
  - cbn. lia.
  - rewrite cerebro_run_cons.
    destruct (next_appends self (world (advance b w))) as (new & Hnew & Hlen).
    destruct (next self (world (advance b w))) as [[[] | e] w'];
      cbn [world snd] in Hnew.
    + specialize (IH w'). rewrite Hnew, length_app in IH.
      cbn [advance world snd orders] in IH. cbn [List.length]. lia.
    + cbn [world snd]. rewrite Hnew, length_app.
      cbn [advance world snd orders List.length]. lia.
Qed.

(** A headline beyond a threshold makes [next] create exactly one order. *)
Lemma next_crossing (self : SentimentStrategy) (w : World) :
  crossing_at self w (news_served w) ->
  outcome (next self w) = Ok tt /\
  List.length (orders (world (next self w))) = S (List.length (orders w)).
Proof.
  intros (resp & a & rest & p & ps & Hresp & Hart & Hpipe & Hcross).
  rewrite next_cases, Hresp, Hart, Hpipe.
  unfold crosses in Hcross.
  destruct (0.5 <? sentiment_score p)%float.
  - split; [ reflexivity | cbn; rewrite length_app; cbn; lia ].
  - cbn in Hcross. rewrite Hcross.
    split; [ reflexivity | cbn; rewrite length_app; cbn; lia ].
Qed.

Lemma crossing_at_service (self : SentimentStrategy) (w w' : World) (n : nat) :
  news_service w' = news_service w ->
  crossing_at self w n -> crossing_at self w' n.
Proof. unfold crossing_at. intros ->. exact (fun H => H). Qed.

(** C8, as amended: nothing limits the rate of orders.  [next] creates one
    order on every bar at which the leading headline's signed score is
    beyond a threshold, so a feed of [n] such bars ends with [n] new orders,
    for every [n] and however close in time the bars are. *)
Theorem run_orders_on_every_crossing_bar
    (self : SentimentStrategy) (data : list Bar) (w : World) :
  (forall k, (k < List.length data)%nat ->
             crossing_at self w (news_served w + k)) ->
  outcome (cerebro_run self data w) = Ok tt /\
  List.length (intents self data w)
  = (List.length (orders w) + List.length data)%nat.
Proof.
  unfold intents. revert w.
  induction data as [ | b rest IH ]; intros w Hall.
  - cbn. split; [ reflexivity | lia ].
  - rewrite cerebro_run_cons.
    destruct (next_crossing self (world (advance b w))) as (Hout & Hlen).
    { generalize (Hall 0%nat). rewrite Nat.add_0_r.
      intros H. apply (crossing_at_service self w); [ reflexivity | ].
      apply H. cbn. lia. }
    destruct (next_frame self (world (advance b w))) as (Hsvc & Hserved & _).
    destruct (next self (world (advance b w))) as [[[] | e] w'];
      cbn [outcome world fst snd] in Hout, Hlen, Hsvc, Hserved;
      [ | discriminate Hout ].
    destruct (IH w') as (Hout' & Hlen').
    { intros k Hk. apply (crossing_at_service self w); [ exact Hsvc | ].
      rewrite Hserved. cbn [advance world snd news_served].
      rewrite Nat.add_succ_l, <- Nat.add_succ_r.
      apply Hall. cbn. lia. }
    split; [ exact Hout' | ].
    rewrite Hlen', Hlen. cbn. lia.
Qed.

(** The theorem at work: four minutes of news that turns every minute give
    four orders. *)
Lemma run_orders_on_every_crossing_bar_witness :
  outcome (cerebro_run Scenario.strategy Scenario.falling
             (Scenario.start Scenario.choppy_service)) = Ok tt /\
  List.length (intents Scenario.strategy Scenario.falling
                 (Scenario.start Scenario.choppy_service)) = 4%nat.
Proof.
  apply (run_orders_on_every_crossing_bar Scenario.strategy Scenario.falling
           (Scenario.start Scenario.choppy_service)).
  intros k Hk. cbn in Hk.
  destruct k as [ | [ | [ | [ | k ] ] ] ]; [ | | | | lia ].
  - exists {| status := "ok"; totalResults := 1;
              articles := [Scenario.article "Brent rallies on supply cut"] |},
           (Scenario.article "Brent rallies on supply cut"), [],
           {| label := "positive"; score := 0.9375 |}, [].
    repeat split.
  - exists {| status := "ok"; totalResults := 1;
              articles := [Scenario.article "Brent slumps as demand fades"] |},
           (Scenario.article "Brent slumps as demand fades"), [],
           {| label := "negative"; score := 0.875 |}, [].
    repeat split.
  - exists {| status := "ok"; totalResults := 1;
              articles := [Scenario.article "Brent rallies on supply cut"] |},
           (Scenario.article "Brent rallies on supply cut"), [],
           {| label := "positive"; score := 0.9375 |}, [].
    repeat split.
  - exists {| status := "ok"; totalResults := 1;
              articles := [Scenario.article "Brent slumps as demand fades"] |},
           (Scenario.article "Brent slumps as demand fades"), [],
           {| label := "negative"; score := 0.875 |}, [].
    repeat split.
Defined.

(** C8, as stated, fails: with a limit of two orders per window and a
    window that holds the four one-minute bars, news that turns every minute
    makes the strategy create four orders, one per bar. *)
Lemma no_rate_limit_on_orders :
  let max_orders_per_window := 2%nat in
  intents Scenario.strategy Scenario.falling
    (Scenario.start Scenario.choppy_service) = [Buy; Sell; Buy; Sell] /\
  ~ (List.length (intents Scenario.strategy Scenario.falling
                    (Scenario.start Scenario.choppy_service))
     <= max_orders_per_window)%nat.
Proof.
  split; [ reflexivity | ].
  change (~ (4 <= 2)%nat). lia.
Qed.

(** C10: the signed score is the model's score when the label is exactly
    ["positive"] and its negation for every other label.  Hence, when the
    leading headline is classified with any label other than positive, and
    neutral in particular, with a score above 0.5, [next] sells. *)
Theorem confident_neutral_headline_sells
    (self : SentimentStrategy) (w : World) (resp : NewsResponse)
    (a : Article) (rest : list Article)
    (p : Prediction) (ps : list Prediction) :
  news_service w (news_served w) (brent_request self) = Ok resp ->
  articles resp = a :: rest ->
  sentiment_pipeline (sentiment_analyzer self) (title a) = p :: ps ->
  (label p = "positive" -> sentiment_score p = score p) /\
  (label p <> "positive" ->
     sentiment_score p = (- score p)%float /\
     ((0.5 <? score p)%float = true ->
        outcome (next self w) = Ok tt /\
        orders (world (next self w)) = orders w ++ [Sell])).
Proof.
  intros Hresp Hart Hpipe. split.
  - intros Hlabel. unfold sentiment_score. rewrite Hlabel. reflexivity.
  - intros Hlabel.
    assert (Hscore : sentiment_score p = (- score p)%float).
    { unfold sentiment_score.
      destruct (String.eqb_spec (label p) "positive"); [ contradiction | ].
      reflexivity. }
    split; [ exact Hscore | ].
    intros Hconf.
    rewrite next_cases, Hresp, Hart, Hpipe, Hscore.
    rewrite (above_half_opp_not_above _ Hconf).
    rewrite (above_half_opp_below _ Hconf).
    split; reflexivity.
Qed.

(** The theorem at work: a headline the model calls neutral with
    probability 0.75 gets the score -0.75 and is sold on. *)
Lemma confident_neutral_headline_sells_witness :
  sentiment_score {| label := "neutral"; score := 0.75 |} = (-0.75)%float /\
  outcome (next Scenario.strategy (Scenario.start Scenario.meeting_service))
  = Ok tt /\
  orders (world (next Scenario.strategy
                   (Scenario.start Scenario.meeting_service))) = [Sell].
Proof.
  destruct (confident_neutral_headline_sells Scenario.strategy
              (Scenario.start Scenario.meeting_service)
              {| status := "ok"; totalResults := 1;
                 articles :=
                   [Scenario.article "OPEC ministers meet on Thursday"] |}
              (Scenario.article "OPEC ministers meet on Thursday") []
              {| label := "neutral"; score := 0.75 |} []
              eq_refl eq_refl eq_refl) as [_ Hother].
  destruct Hother as [Hscore Hsell]; [ discriminate | ].
  split; [ exact Hscore | ].
  apply Hsell. reflexivity.
Defined.

End StrategyFacts.

(* ================================================================== *)
(** * The sentiment score *)
(* ================================================================== *)

Module SentimentFacts.


(** The signed score of a probability lies between -1 and 1. *)
Lemma sentiment_score_bounds (p : Prediction) :
  (0 <=? score p)%float = true -> (score p <=? 1)%float = true ->
  (-1 <=? sentiment_score p)%float = true /\
  (sentiment_score p <=? 1)%float = true.
Proof.
  intros Hlo Hhi. unfold sentiment_score.
  destruct (String.eqb (label p) "positive").
  - split; [ apply probability_above_minus_one; exact Hlo | exact Hhi ].
  - split; [ apply opp_probability_above_minus_one; exact Hhi
           | apply opp_probability_below_one; exact Hlo ].
Qed.




End SentimentFacts.

(* ================================================================== *)
(** * The executor *)
(* ================================================================== *)

Module ExecutionFacts.
Import Execution Desk.

(** One call of [place_order], case by case on the fate of its
    submission. *)
Lemma place_order_cases (self : TradeExecutor)
    (symbol : string) (qty : Z) (side type time_in_force : string)
    (w : World) :
  let r := sent symbol qty side type time_in_force in
  place_order self symbol qty side type time_in_force w =
  match hd Acked (network w) with
  | Acked => (Ok (Some (new_order r w)), received r true w)
  | Failed created e =>
      if derives_from_Exception (exn_type e) then
        (Ok None, world (print (error_line e) (received r created w)))
      else (Raised e, received r created w)
  end.
Proof.
  unfold place_order, try_except_Exception, bind, submit_order, sent.
  cbn [client_order_id client_id_used].
  destruct (hd Acked (network w)) as [ | created e ]; [ reflexivity | ].
  destruct (derives_from_Exception (exn_type e)); reflexivity.
Qed.

(** The client's call inside [place_order], case by case on the fate of
    its last POST. *)
Lemma submit_order_cases (self : TradeExecutor)
    (symbol : string) (qty : Z) (side type time_in_force : string)
    (w : World) :
  let r := sent symbol qty side type time_in_force in
  submit_order (api self) r w =
  match hd Acked (network w) with
  | Acked => (Ok (new_order r w), received r true w)
  | Failed created e => (Raised e, received r created w)
  end.
Proof.
  unfold submit_order, sent. cbn [client_order_id client_id_used].
  destruct (hd Acked (network w)) as [ | created e ]; reflexivity.
Qed.

(** The POSTs the client retries touch neither the coming replies nor
    standard output. *)
Lemma repost_frame (r : OrderRequest) (replies : list Retried) :
  forall w : World,
    network (repost r replies w) = network w /\
    gateway (repost r replies w) = gateway w /\
    stdout (repost r replies w) = stdout w.
Proof.
  induction replies as [ | x rest IH ]; intros w; [ repeat split | ].
  cbn [repost]. destruct (IH (post r
    (created_by x && negb (client_id_used (client_order_id r) (book w))) w))
    as (-> & -> & ->).
  repeat split.
Qed.

(** Each of them reaches the broker as a submission of the same request. *)
Lemma repost_calls (r : OrderRequest) (replies : list Retried) :
  forall w : World,
    calls (repost r replies w)
    = calls w ++ repeat (SubmitOrder r) (List.length replies).
Proof.
  induction replies as [ | x rest IH ]; intros w.
  - cbn. now rewrite app_nil_r.
  - cbn [repost List.length repeat]. rewrite IH. cbn [post calls].
    rewrite <- app_assoc. reflexivity.
Qed.

(** They only add orders to the book, each made from that request and at
    most one per POST. *)
Lemma repost_book (r : OrderRequest) (replies : list Retried) :
  forall w : World,
    exists new,
      book (repost r replies w) = book w ++ new /\
      Forall (fun o => request o = r) new /\
      (List.length new <= List.length replies)%nat.
Proof.
  induction replies as [ | x rest IH ]; intros w.
  - exists []. cbn. rewrite app_nil_r.
    split; [ reflexivity | split; [ constructor | lia ] ].
  - cbn [repost].
    destruct (IH (post r
      (created_by x && negb (client_id_used (client_order_id r) (book w))) w))
      as (more & Hbook & Hall & Hlen).
    rewrite Hbook. cbn [post book].
    destruct (created_by x
              && negb (client_id_used (client_order_id r) (book w))).
    + exists ({| id := List.length (book w); request := r |} :: more).
      rewrite <- app_assoc. split; [ reflexivity | ].
      split; [ constructor; [ reflexivity | exact Hall ] | cbn; lia ].
    + exists more. split; [ reflexivity | ].
      split; [ exact Hall | cbn; lia ].
Qed.

(** The calls the broker has received by the end of [place_order]. *)
Lemma place_order_calls (self : TradeExecutor)
    (symbol : string) (qty : Z) (side type time_in_force : string)
    (w : World) :
  calls (world (place_order self symbol qty side type time_in_force w))
  = calls w
    ++ repeat (SubmitOrder (sent symbol qty side type time_in_force))
         (S (List.length (hd [] (gateway w)))).
Proof.
  assert (H : calls (received (sent symbol qty side type time_in_force)
                       false w)
              = calls w
                ++ repeat (SubmitOrder
                             (sent symbol qty side type time_in_force))
                     (S (List.length (hd [] (gateway w))))).
  { cbn [received calls]. unfold retried. rewrite repost_calls.
    rewrite <- app_assoc, <- repeat_cons. reflexivity. }
  rewrite place_order_cases. cbv zeta.
  destruct (hd Acked (network w)) as [ | created e ]; [ exact H | ].
  destruct (derives_from_Exception (exn_type e)); exact H.
Qed.

(** The book at the end of [place_order]: the book before, then the orders
    the call has created, each made from its arguments. *)
Lemma place_order_book (self : TradeExecutor)
    (symbol : string) (qty : Z) (side type time_in_force : string)
    (w : World) :
  let r := sent symbol qty side type time_in_force in
  let run := place_order self symbol qty side type time_in_force w in
  exists new,
    book (world run) = book w ++ new /\
    Forall (fun o => request o = r) new /\
    (List.length new <= S (List.length (hd [] (gateway w))))%nat /\
    (forall o, outcome run = Ok (Some o) ->
               exists earlier, new = earlier ++ [o]).
Proof.
  cbv zeta.
  destruct (repost_book (sent symbol qty side type time_in_force)
              (hd [] (gateway w)) w) as (early & Hbook & Hall & Hlen).
  assert (Hyes : book (received (sent symbol qty side type time_in_force)
                         true w)
                 = book w
                   ++ (early
                       ++ [new_order
                             (sent symbol qty side type time_in_force) w])).
  { cbn [received book]. unfold retried at 1. rewrite Hbook.
    now rewrite <- app_assoc. }
  assert (Hno : book (received (sent symbol qty side type time_in_force)
                        false w)
                = book w ++ early).
  { cbn [received book]. unfold retried. exact Hbook. }
  assert (Hall' : Forall
            (fun o => request o = sent symbol qty side type time_in_force)
            (early
             ++ [new_order (sent symbol qty side type time_in_force) w])).
  { apply Forall_app. split; [ exact Hall | ].
    constructor; [ reflexivity | constructor ]. }
  assert (Hlen' : (List.length
                     (early
                      ++ [new_order
                            (sent symbol qty side type time_in_force) w])
                   <= S (List.length (hd [] (gateway w))))%nat).
  { rewrite length_app. cbn [List.length]. lia. }
  rewrite place_order_cases. cbv zeta.
  destruct (hd Acked (network w)) as [ | created e ].
  - eexists. split; [ exact Hyes | ].
    split; [ exact Hall' | ]. split; [ exact Hlen' | ].
    intros o H. injection H as <-. exists early. reflexivity.
  - destruct (derives_from_Exception (exn_type e)), created;
      cbn [world snd print book outcome fst].
    + eexists. split; [ exact Hyes | ].
      split; [ exact Hall' | ]. split; [ exact Hlen' | discriminate ].
    + eexists. split; [ exact Hno | ].
      split; [ exact Hall | ]. split; [ lia | discriminate ].
    + eexists. split; [ exact Hyes | ].
      split; [ exact Hall' | ]. split; [ exact Hlen' | discriminate ].
    + eexists. split; [ exact Hno | ].
      split; [ exact Hall | ]. split; [ lia | discriminate ].
Qed.

(** An exception outside [Exception] goes through [place_order]. *)
Lemma place_order_lets_BaseException_through (self : TradeExecutor)
    (symbol : string) (qty : Z) (side type time_in_force : string)
    (w : World) (created : bool) (e : exn) :
  hd Acked (network w) = Failed created e ->
  derives_from_Exception (exn_type e) = false ->
  outcome (place_order self symbol qty side type time_in_force w) = Raised e.
Proof.
  intros Hfate Hbase. rewrite place_order_cases, Hfate, Hbase. reflexivity.
Qed.

(** The retry loop, one call at a time. *)
Lemma place_orders_S (self : TradeExecutor) (n : nat)
    (symbol : string) (qty : Z) (side type time_in_force : string)
    (w : World) :
  place_orders self (S n) symbol qty side type time_in_force w =
  match place_order self symbol qty side type time_in_force w with
  | (Ok o, w') =>
      match place_orders self n symbol qty side type time_in_force w' with
      | (Ok os, w'') => (Ok (o :: os), w'')
      | (Raised e, w'') => (Raised e, w'')
      end
  | (Raised e, w') => (Raised e, w')
  end.
Proof. reflexivity. Qed.

(** On a broker that acknowledges every first POST, [n] calls with the same
    arguments create [n] orders, numbered from the size of the book
    onwards. *)
Lemma place_orders_all_acked (self : TradeExecutor) (n : nat)
    (symbol : string) (qty : Z) (side type time_in_force : string) :
  forall w : World,
    all_acked w ->
    let r := sent symbol qty side type time_in_force in
    let created := map (fun i => {| id := i; request := r |})
                       (seq (List.length (book w)) n) in
    outcome (place_orders self n symbol qty side type time_in_force w)
    = Ok (map Some created) /\
    book (world (place_orders self n symbol qty side type time_in_force w))
    = book w ++ created.
Proof.
  induction n as [ | n IH ]; intros w Hacked; cbn zeta.
  - cbn. rewrite app_nil_r. split; reflexivity.
  - rewrite place_orders_S, place_order_cases.
    destruct Hacked as (Hnet & Hgate).
    assert (Hhd : hd Acked (network w) = Acked).
    { destruct (network w) as [ | f fs ]; [ reflexivity | ].
      now inversion Hnet. }
    assert (Hnone : hd [] (gateway w) = []).
    { destruct (gateway w) as [ | l ls ]; [ reflexivity | ].
      now inversion Hgate. }
    assert (Hsame : retried (sent symbol qty side type time_in_force) w = w).
    { unfold retried. rewrite Hnone. reflexivity. }
    rewrite Hhd.
    assert (Hacked' : all_acked
              (received (sent symbol qty side type time_in_force) true w)).
    { split; cbn [received network gateway].
      - destruct (network w) as [ | f fs ]; [ constructor | ].
        now inversion Hnet.
      - destruct (gateway w) as [ | l ls ]; [ constructor | ].
        now inversion Hgate. }
    destruct (IH _ Hacked') as (Hout & Hbook).
    destruct (place_orders self n symbol qty side type time_in_force
                (received (sent symbol qty side type time_in_force) true w))
      as [[os | e] w''];
      cbn [outcome world fst snd] in Hout, Hbook; [ | discriminate Hout ].
    injection Hout as ->. cbn [outcome world fst snd].
    rewrite Hbook. cbn [received book]. unfold new_order. rewrite Hsame.
    rewrite length_app, Nat.add_1_r, <- app_assoc.
    split; reflexivity.
Qed.

(** X19: [place_order] takes no [client_order_id] and sends none, and every
    acknowledged call creates a new live order.  Placing the same order [n]
    times on a broker that acknowledges every first POST returns [n] orders
    and adds [n] orders to the broker's book, all made from the same
    request. *)
Theorem every_acked_call_creates_an_order (self : TradeExecutor) (n : nat)
    (symbol : string) (qty : Z) (side type time_in_force : string)
    (w : World) :
  all_acked w ->
  client_order_id (sent symbol qty side type time_in_force) = None /\
  (exists created,
     outcome (place_orders self n symbol qty side type time_in_force w)
     = Ok (map Some created) /\
     book (world (place_orders self n symbol qty side type time_in_force w))
     = book w ++ created /\
     List.length created = n /\
     Forall (fun o => request o = sent symbol qty side type time_in_force)
            created).
Proof.
  intros Hacked. split; [ reflexivity | ].
  destruct (place_orders_all_acked self n symbol qty side type time_in_force
              w Hacked) as (Hout & Hbook).
  eexists. split; [ exact Hout | ]. split; [ exact Hbook | ].
  split.
  - now rewrite length_map, length_seq.
  - apply Forall_forall. intros o Hin.
    apply in_map_iff in Hin. destruct Hin as (i & <- & _). reflexivity.
Qed.

(** The theorem at work: the same market order placed twice leaves two
    live orders. *)
Lemma every_acked_call_creates_an_order_witness :
  exists created,
    outcome (place_orders Scenario.executor 2 "BNO" 10 "buy" "market" "gtc"
               (Scenario.broker []))
    = Ok (map Some created) /\
    book (world (place_orders Scenario.executor 2 "BNO" 10 "buy" "market"
                   "gtc" (Scenario.broker [])))
    = created /\
    List.length created = 2%nat.
Proof.
  destruct (every_acked_call_creates_an_order Scenario.executor 2
              "BNO" 10 "buy" "market" "gtc" (Scenario.broker []))
    as (_ & created & Hout & Hbook & Hlen & _).
  - split; constructor.
  - exists created. split; [ exact Hout | ].
    split; [ exact Hbook | exact Hlen ].
Defined.

(** Had the request carried a [client_order_id], the broker would have
    refused the second submission. *)
Lemma broker_refuses_reused_client_order_id :
  let r := {| symbol := "BNO"; qty := 10; side := "buy"; type := "market";
              time_in_force := "gtc"; client_order_id := Some "intent-1" |} in
  let twice := (submit_order (api Scenario.executor) r ;;;
                submit_order (api Scenario.executor) r) in
  outcome (twice (Scenario.broker []))
  = Raised (Exn APIError "client_order_id must be unique") /\
  List.length (book (world (twice (Scenario.broker [])))) = 1%nat.
Proof. split; reflexivity. Qed.

(** C3, as amended: when the submission fails with an [Exception], a
    network timeout included, [place_order] prints the error and returns
    [None].  It asks for no status and records no state for the order: every
    call the broker has received from it is a submission of the same
    request, one for the POST that failed and one for each reply the client
    retried before, and the orders these may have left in the broker's book
    are all made from that request. *)
Theorem failed_submission_is_not_reconciled (self : TradeExecutor)
    (symbol : string) (qty : Z) (side type time_in_force : string)
    (w : World) (created : bool) (e : exn) :
  hd Acked (network w) = Failed created e ->
  derives_from_Exception (exn_type e) = true ->
  let r := sent symbol qty side type time_in_force in
  let after := world (place_order self symbol qty side type time_in_force w) in
  outcome (place_order self symbol qty side type time_in_force w) = Ok None /\
  calls after
  = calls w ++ repeat (SubmitOrder r) (S (List.length (hd [] (gateway w)))) /\
  (exists new,
     book after = book w ++ new /\ Forall (fun o => request o = r) new) /\
  stdout after = stdout w ++ [error_line e].
Proof.
  intros Hfate Hexc. cbv zeta.
  split; [ rewrite place_order_cases, Hfate, Hexc; reflexivity | ].
  split; [ apply place_order_calls | ].
  split.
  - destruct (place_order_book self symbol qty side type time_in_force w)
      as (new & Hbook & Hall & _).
    exists new. split; [ exact Hbook | exact Hall ].
  - rewrite place_order_cases, Hfate, Hexc.
    cbn [world snd print stdout received]. unfold retried.
    destruct (repost_frame (sent symbol qty side type time_in_force)
                (hd [] (gateway w)) w) as (_ & _ & ->).
    reflexivity.
Qed.

(** The theorem at work: a first POST is answered 504 after the broker has
    created the order, and the reply to the second POST is lost. *)
Lemma failed_submission_is_not_reconciled_witness :
  let w := Cases.congested [GatewayTimeout true]
             (Failed false Scenario.timeout) in
  let r := sent "BNO" 10 "buy" "market" "gtc" in
  let after := world (place_order Scenario.executor "BNO" 10 "buy" "market"
                        "gtc" w) in
  outcome (place_order Scenario.executor "BNO" 10 "buy" "market" "gtc" w)
  = Ok None /\
  calls after = [SubmitOrder r; SubmitOrder r] /\
  (exists new,
     book after = new /\ Forall (fun o => request o = r) new) /\
  stdout after = ["Error placing order: Read timed out."].
Proof.
  exact (failed_submission_is_not_reconciled Scenario.executor
           "BNO" 10 "buy" "market" "gtc"
           (Cases.congested [GatewayTimeout true]
              (Failed false Scenario.timeout))
           false Scenario.timeout eq_refl eq_refl).
Defined.

(** C3, as stated, fails: no state tells a timeout from a rejection, no
    status query is ever made, and a resubmission without reconciliation is
    reachable and leaves two live orders.  The broker accepts the first
    submission but the reply times out; [place_order] returns [None], as it
    does when the broker rejects the order; the caller places the order
    again; the broker has then received two submissions and no status query,
    and holds two live orders. *)
Lemma resubmission_without_status_query :
  let w := Scenario.broker [Failed true Scenario.timeout] in
  let rejecting :=
    Scenario.broker [Failed false (Exn APIError "insufficient buying power")] in
  let r := sent "BNO" 10 "buy" "market" "gtc" in
  let run := place_orders Scenario.executor 2 "BNO" 10 "buy" "market" "gtc" w in
  outcome (place_order Scenario.executor "BNO" 10 "buy" "market" "gtc" w)
  = outcome (place_order Scenario.executor "BNO" 10 "buy" "market" "gtc"
               rejecting) /\
  outcome run = Ok [None; Some {| id := 1; request := r |}] /\
  calls (world run) = [SubmitOrder r; SubmitOrder r] /\
  book (world run) = [ {| id := 0; request := r |};
                       {| id := 1; request := r |} ].
Proof. repeat split. Qed.

(** C9, as amended: [place_order] lets no exception that derives from
    [Exception] reach its caller.  When every failure the submission can
    meet raises such an exception, the call returns the broker's order if the
    submission is acknowledged and [None] if it fails, whatever the failure,
    so the return value does not tell one failure from another. *)
Theorem place_order_swallows_Exception (self : TradeExecutor)
    (symbol : string) (qty : Z) (side type time_in_force : string)
    (w : World) :
  (forall created e,
     hd Acked (network w) = Failed created e ->
     derives_from_Exception (exn_type e) = true) ->
  outcome (place_order self symbol qty side type time_in_force w) =
  match hd Acked (network w) with
  | Acked =>
      Ok (Some (new_order (sent symbol qty side type time_in_force) w))
  | Failed _ _ => Ok None
  end.
Proof.
  intros Hexc. rewrite place_order_cases.
  destruct (hd Acked (network w)) as [ | created e ] eqn:Hfate;
    [ reflexivity | ].
  rewrite (Hexc created e eq_refl). reflexivity.
Qed.

(** The theorem at work: the broker refuses the order for lack of buying
    power and the caller sees [None], as it does after a timeout. *)
Lemma place_order_swallows_Exception_witness :
  outcome (place_order Scenario.executor "BNO" 10 "buy" "market" "gtc"
             (Scenario.broker
                [Failed false (Exn APIError "insufficient buying power")]))
  = Ok None.
Proof.
  apply (place_order_swallows_Exception Scenario.executor
           "BNO" 10 "buy" "market" "gtc"
           (Scenario.broker
              [Failed false (Exn APIError "insufficient buying power")])).
  intros created e H. cbn in H. injection H as _ <-. reflexivity.
Defined.

(** C9, as stated, fails: not every exception is kept from the caller.  A
    [KeyboardInterrupt] raised while the submission is in flight is not an
    [Exception] and leaves [place_order] as it came. *)
Lemma place_order_propagates_KeyboardInterrupt :
  ~ (forall (self : TradeExecutor)
            (symbol : string) (qty : Z) (side type time_in_force : string)
            (w : World),
       exists o,
         outcome (place_order self symbol qty side type time_in_force w)
         = Ok o).
Proof.
  intros H.
  destruct (H Scenario.executor "BNO" 10%Z "buy" "market" "gtc"
              (Scenario.broker [Failed false Scenario.interrupt]))
    as [o Ho].
  vm_compute in Ho. discriminate Ho.
Qed.

End ExecutionFacts.

(* ================================================================== *)
(** * More on the order of binary64 floats *)
(* ================================================================== *)

Section FloatOrderMore.

(** Swapping the operands of a comparison swaps its result; NaN stays
    unordered. *)
Lemma SFcompare_swap (a b : spec_float) :
  SFcompare b a = option_map CompOpp (SFcompare a b).
Proof.
  destruct a as [sa | sa | | sa ma ea], b as [sb | sb | | sb mb eb];
    cbn [SFcompare option_map]; try reflexivity;
    try (destruct sa; reflexivity); try (destruct sb; reflexivity);
    try (destruct sa, sb; reflexivity).
  destruct sa, sb; try reflexivity;
    rewrite (Z.compare_antisym ea eb);
    destruct (ea ?= eb)%Z; cbn [CompOpp]; try reflexivity.
  - do 2 f_equal. symmetry. apply (Pos.compare_cont_antisym ma mb Eq).
  - f_equal. symmetry. apply (Pos.compare_cont_antisym ma mb Eq).
Qed.

Lemma leb_not_ltb (x y : float) :
  (x <=? y)%float = true -> (y <? x)%float = false.
Proof.
  rewrite leb_spec, ltb_spec. unfold SFleb, SFltb.
  rewrite (SFcompare_swap (Prim2SF x) (Prim2SF y)).
  destruct (SFcompare (Prim2SF x) (Prim2SF y)) as [[ | | ] | ];
    cbn; congruence.
Qed.

(** A float that differs from itself is NaN. *)
Lemma is_nan_Prim2SF (x : float) :
  PrimFloat.is_nan x = true -> Prim2SF x = S754_nan.
Proof.
  unfold PrimFloat.is_nan. rewrite FloatAxioms.eqb_spec. unfold SFeqb. intros H.
  destruct (Prim2SF x) as [[|] | [|] | | [|] m e];
    cbn [SFcompare negb] in H; try discriminate H; try reflexivity;
    rewrite Z.compare_refl, Pos.compare_cont_refl in H; discriminate H.
Qed.

(** NaN is beyond no threshold, negated or not. *)
Lemma nan_below_nothing (x y : float) :
  PrimFloat.is_nan x = true ->
  (y <? x)%float = false /\ (x <? y)%float = false /\
  (y <? - x)%float = false /\ (- x <? y)%float = false.
Proof.
  intros H. apply is_nan_Prim2SF in H.
  rewrite !ltb_spec, !opp_spec, H. unfold SFltb. cbn [SFopp].
  destruct (Prim2SF y); repeat split.
Qed.

(** Negation keeps the magnitude, bit for bit. *)
Lemma abs_opp (x : float) : abs (- x) = abs x.
Proof.
  rewrite <- (SF2Prim_Prim2SF (abs (- x))), <- (SF2Prim_Prim2SF (abs x)).
  rewrite !abs_spec, opp_spec.
  destruct (Prim2SF x); reflexivity.
Qed.

End FloatOrderMore.

Section Band.

Variable s : float.

Lemma probability_not_below_minus_half :
  (0 <=? s)%float = true -> (s <? -0.5)%float = false.
Proof. intros H. float_cases s H. Qed.

Lemma opp_probability_not_above_half :
  (0 <=? s)%float = true -> (0.5 <? - s)%float = false.
Proof. intros H. float_cases s H. Qed.

Lemma at_most_half_opp_not_below :
  (s <=? 0.5)%float = true -> (- s <? -0.5)%float = false.
Proof.
  intros H. rewrite minus_half, ltb_opp. apply leb_not_ltb. exact H.
Qed.

End Band.

(* ================================================================== *)
(** * More on the strategy *)
(* ================================================================== *)

Module StrategyMore.
Import Backtesting Backtest StrategyFacts.

(** X1: the strategy asks the news service once per bar.  A run never
    makes more requests than the feed has bars, and a run that ends normally
    has made exactly that many. *)
Theorem run_requests_news_once_per_bar
    (self : SentimentStrategy) (data : list Bar) (w : World) :
  (news_served (world (cerebro_run self data w))
   <= news_served w + List.length data)%nat /\
  (outcome (cerebro_run self data w) = Ok tt ->
   news_served (world (cerebro_run self data w))
   = (news_served w + List.length data)%nat).
Proof.
  revert w. induction data as [ | b rest IH ]; intros w.
  - cbn. split; [ lia | intros _; lia ].
  - rewrite cerebro_run_cons.
    destruct (next_frame self (world (advance b w))) as (_ & Hserved & _).
    destruct (next self (world (advance b w))) as [[[] | e] w'];
      cbn [world snd advance news_served] in Hserved.
    + destruct (IH w') as (Hle & Heq). rewrite Hserved in Hle, Heq.
      cbn [List.length]. split; [ lia | ].
      intros Hok. rewrite (Heq Hok). lia.
    + cbn [world outcome fst snd List.length].
      split; [ lia | discriminate ].
Qed.

(** X2: a run never removes or reorders an order created before: the
    orders at the start are a prefix of the orders at the end, and at most
    one order per bar is added. *)
Theorem run_keeps_earlier_orders
    (self : SentimentStrategy) (data : list Bar) (w : World) :
  exists new,
    orders (world (cerebro_run self data w)) = orders w ++ new /\
    (List.length new <= List.length data)%nat.
Proof.
  revert w. induction data as [ | b rest IH ]; intros w.
  - exists []. cbn. rewrite app_nil_r. split; [ reflexivity | lia ].
  - rewrite cerebro_run_cons.
    destruct (next_appends self (world (advance b w))) as (one & Hone & Hlen).
    destruct (next self (world (advance b w))) as [[[] | e] w'];
      cbn [world snd advance orders] in Hone.
    + destruct (IH w') as (more & Hmore & Hlen').
      exists (one ++ more). rewrite Hmore, Hone, app_assoc.
      split; [ reflexivity | rewrite length_app; cbn [List.length]; lia ].
    + exists one. cbn [world snd].
      split; [ exact Hone | cbn [List.length]; lia ].
Qed.

(** X4: [next] has no handler of its own.  When the news service raises,
    whatever the class of the exception, [next] raises the same exception
    after that one request and creates no order. *)
Theorem next_lets_service_errors_through
    (self : SentimentStrategy) (w : World) (e : exn) :
  news_service w (news_served w) (brent_request self) = Raised e ->
  outcome (next self w) = Raised e /\
  orders (world (next self w)) = orders w /\
  news_served (world (next self w)) = S (news_served w).
Proof.
  intros H. rewrite next_cases, H. repeat split.
Qed.

(** The service refuses the key. *)
Lemma next_lets_service_errors_through_witness :
  outcome (next Scenario.strategy (Scenario.start Cases.refusing_service))
  = Raised (Exn NewsAPIException "apiKeyInvalid") /\
  orders (world (next Scenario.strategy
                   (Scenario.start Cases.refusing_service))) = [] /\
  news_served (world (next Scenario.strategy
                        (Scenario.start Cases.refusing_service))) = 1%nat.
Proof.
  exact (next_lets_service_errors_through Scenario.strategy
           (Scenario.start Cases.refusing_service)
           (Exn NewsAPIException "apiKeyInvalid") eq_refl).
Defined.

(** X5: the thresholds are strict and leave a band with no trade.  When
    the score of the leading prediction lies between 0 and 0.5, both ends
    included, [next] creates no order, whatever the label. *)
Theorem no_order_inside_the_band
    (self : SentimentStrategy) (w : World) (resp : NewsResponse)
    (a : Article) (rest : list Article)
    (p : Prediction) (ps : list Prediction) :
  news_service w (news_served w) (brent_request self) = Ok resp ->
  articles resp = a :: rest ->
  sentiment_pipeline (sentiment_analyzer self) (title a) = p :: ps ->
  (0 <=? score p)%float = true ->
  (score p <=? 0.5)%float = true ->
  outcome (next self w) = Ok tt /\
  orders (world (next self w)) = orders w.
Proof.
  intros Hresp Hart Hpipe Hlo Hhi.
  rewrite next_cases, Hresp, Hart, Hpipe. unfold sentiment_score.
  destruct (String.eqb (label p) "positive").
  - rewrite (leb_not_ltb _ _ Hhi),
            (probability_not_below_minus_half _ Hlo).
    split; reflexivity.
  - rewrite (opp_probability_not_above_half _ Hlo),
            (at_most_half_opp_not_below _ Hhi).
    split; reflexivity.
Qed.

(** A negative headline with score exactly 0.5 is not sold on. *)
Lemma no_order_inside_the_band_witness :
  outcome (next (Cases.strategy_with Cases.undecided)
             (Scenario.start Scenario.rally_service)) = Ok tt /\
  orders (world (next (Cases.strategy_with Cases.undecided)
                   (Scenario.start Scenario.rally_service))) = [].
Proof.
  exact (no_order_inside_the_band (Cases.strategy_with Cases.undecided)
           (Scenario.start Scenario.rally_service)
           {| status := "ok"; totalResults := 1;
              articles := [Scenario.article "Brent rallies on supply cut"] |}
           (Scenario.article "Brent rallies on supply cut") []
           {| label := "negative"; score := 0.5 |} []
           eq_refl eq_refl eq_refl eq_refl eq_refl).
Defined.

(** X6: a score that is not a number triggers nothing.  When the score of
    the leading prediction is NaN, [next] returns normally and creates no
    order, whatever the label. *)
Theorem no_order_on_nan_score
    (self : SentimentStrategy) (w : World) (resp : NewsResponse)
    (a : Article) (rest : list Article)
    (p : Prediction) (ps : list Prediction) :
  news_service w (news_served w) (brent_request self) = Ok resp ->
  articles resp = a :: rest ->
  sentiment_pipeline (sentiment_analyzer self) (title a) = p :: ps ->
  PrimFloat.is_nan (score p) = true ->
  outcome (next self w) = Ok tt /\
  orders (world (next self w)) = orders w.
Proof.
  intros Hresp Hart Hpipe Hnan.
  rewrite next_cases, Hresp, Hart, Hpipe. unfold sentiment_score.
  destruct (nan_below_nothing (score p) 0.5 Hnan) as (H1 & _ & H2 & _).
  destruct (nan_below_nothing (score p) (-0.5) Hnan) as (_ & H3 & _ & H4).
  destruct (String.eqb (label p) "positive").
  - rewrite H1, H3. split; reflexivity.
  - rewrite H2, H4. split; reflexivity.
Qed.

Lemma no_order_on_nan_score_witness :
  outcome (next (Cases.strategy_with Cases.broken)
             (Scenario.start Scenario.rally_service)) = Ok tt /\
  orders (world (next (Cases.strategy_with Cases.broken)
                   (Scenario.start Scenario.rally_service))) = [].
Proof.
  exact (no_order_on_nan_score (Cases.strategy_with Cases.broken)
           (Scenario.start Scenario.rally_service)
           {| status := "ok"; totalResults := 1;
              articles := [Scenario.article "Brent rallies on supply cut"] |}
           (Scenario.article "Brent rallies on supply cut") []
           {| label := "positive"; score := nan |} []
           eq_refl eq_refl eq_refl eq_refl).
Defined.

(** X7: with a score that is not negative, the side of the order follows
    the label.  A leading prediction labelled positive never makes [next]
    sell, and one with any other label never makes it buy. *)
Theorem order_side_follows_label
    (self : SentimentStrategy) (w : World) (resp : NewsResponse)
    (a : Article) (rest : list Article)
    (p : Prediction) (ps : list Prediction) :
  news_service w (news_served w) (brent_request self) = Ok resp ->
  articles resp = a :: rest ->
  sentiment_pipeline (sentiment_analyzer self) (title a) = p :: ps ->
  (0 <=? score p)%float = true ->
  (label p = "positive" ->
     orders (world (next self w)) = orders w \/
     orders (world (next self w)) = orders w ++ [Buy]) /\
  (label p <> "positive" ->
     orders (world (next self w)) = orders w \/
     orders (world (next self w)) = orders w ++ [Sell]).
Proof.
  intros Hresp Hart Hpipe Hlo.
  rewrite next_cases, Hresp, Hart, Hpipe. unfold sentiment_score.
  split; intros Hlabel;
    destruct (String.eqb_spec (label p) "positive") as [Heq | Hneq];
    try contradiction.
  - rewrite (probability_not_below_minus_half _ Hlo).
    destruct (0.5 <? score p)%float; [ right | left ]; reflexivity.
  - rewrite (opp_probability_not_above_half _ Hlo).
    destruct (- score p <? -0.5)%float; [ right | left ]; reflexivity.
Qed.

(** The rally headline, labelled positive, may be bought on and is not
    sold on. *)
Lemma order_side_follows_label_witness :
  orders (world (next Scenario.strategy
                   (Scenario.start Scenario.rally_service))) = [] \/
  orders (world (next Scenario.strategy
                   (Scenario.start Scenario.rally_service))) = [Buy].
Proof.
  exact (proj1 (order_side_follows_label Scenario.strategy
                  (Scenario.start Scenario.rally_service)
                  {| status := "ok"; totalResults := 1;
                     articles :=
                       [Scenario.article "Brent rallies on supply cut"] |}
                  (Scenario.article "Brent rallies on supply cut") []
                  {| label := "positive"; score := 0.9375 |} []
                  eq_refl eq_refl eq_refl eq_refl) eq_refl).
Defined.

(** X8: only the title of the first article counts.  Two answers of the
    service whose first articles carry the same title lead [next] to the
    same outcome and the same orders, whatever the other fields and the
    other articles are. *)
Theorem only_first_title_matters
    (self : SentimentStrategy) (w1 w2 : World) (resp1 resp2 : NewsResponse) :
  news_service w1 (news_served w1) (brent_request self) = Ok resp1 ->
  news_service w2 (news_served w2) (brent_request self) = Ok resp2 ->
  option_map title (hd_error (articles resp1))
  = option_map title (hd_error (articles resp2)) ->
  orders w1 = orders w2 ->
  outcome (next self w1) = outcome (next self w2) /\
  orders (world (next self w1)) = orders (world (next self w2)).
Proof.
  intros H1 H2 Htitle Hord.
  rewrite !next_cases, H1, H2.
  destruct (articles resp1) as [ | a1 rest1 ],
           (articles resp2) as [ | a2 rest2 ];
    cbn [hd_error option_map] in Htitle; try discriminate Htitle.
  - split; [ reflexivity | exact Hord ].
  - injection Htitle as ->.
    destruct (sentiment_pipeline _ _) as [ | p ps ];
      [ split; [ reflexivity | exact Hord ] | ].
    destruct (0.5 <? sentiment_score p)%float;
      [ split; [ reflexivity | cbn; now rewrite Hord ] | ].
    destruct (sentiment_score p <? -0.5)%float;
      [ split; [ reflexivity | cbn; now rewrite Hord ] | ].
    split; [ reflexivity | exact Hord ].
Qed.

(** The rally headline alone, and the same headline from another source
    followed by the slump headline. *)
Lemma only_first_title_matters_witness :
  let alone (n : nat) (r : NewsRequest) :=
    Scenario.answer [Scenario.article "Brent rallies on supply cut"] in
  let followed (n : nat) (r : NewsRequest) :=
    Scenario.answer
      [ {| source := "bloomberg"; title := "Brent rallies on supply cut";
           publishedAt := "2023-03-01T10:30:00Z" |};
        Scenario.article "Brent slumps as demand fades" ] in
  outcome (next Scenario.strategy (Scenario.start alone))
  = outcome (next Scenario.strategy (Scenario.start followed)) /\
  orders (world (next Scenario.strategy (Scenario.start alone)))
  = orders (world (next Scenario.strategy (Scenario.start followed))).
Proof.
  cbv zeta.
  refine (only_first_title_matters Scenario.strategy
            (Scenario.start _) (Scenario.start _) _ _
            eq_refl eq_refl eq_refl eq_refl).
Defined.

End StrategyMore.

(* ================================================================== *)
(** * More on the sentiment score *)
(* ================================================================== *)

Module SentimentMore.

(** X9: signing a score changes its sign at most, never its magnitude:
    the absolute value of the signed score is that of the model's score, bit
    for bit, for every label and every float. *)
Theorem sentiment_score_keeps_magnitude (p : Prediction) :
  abs (sentiment_score p) = abs (score p).
Proof.
  unfold sentiment_score.
  destruct (String.eqb (label p) "positive");
    [ reflexivity | apply abs_opp ].
Qed.

End SentimentMore.

(* ================================================================== *)
(** * The market data fetcher *)
(* ================================================================== *)

Module MarketFacts.
Import MarketData.

(** X10: with no ticker, [fetch_realtime_data] raises [IndexError] before
    it asks Yahoo anything. *)
Theorem fetch_realtime_data_without_ticker
    (self : MarketDataFetcher) (w : World) :
  tickers self = [] ->
  fetch_realtime_data self w
  = (Raised (Exn IndexError "list index out of range"), w).
Proof.
  intros H. unfold fetch_realtime_data, bind, getitem. rewrite H.
  reflexivity.
Qed.

Lemma fetch_realtime_data_without_ticker_witness :
  fetch_realtime_data (MarketDataFetcher_init [])
    (Cases.yahoo_world Cases.yahoo_up)
  = (Raised (Exn IndexError "list index out of range"),
     Cases.yahoo_world Cases.yahoo_up).
Proof.
  exact (fetch_realtime_data_without_ticker (MarketDataFetcher_init [])
           (Cases.yahoo_world Cases.yahoo_up) eq_refl).
Defined.

(** X11: [fetch_realtime_data] serves the first ticker only.  It makes
    one request, for the one-minute history of the first ticker over one
    day, and returns or raises what Yahoo answers; the other tickers are
    never asked for, whereas [fetch_historical_data] asks for all of them in
    its one request. *)
Theorem fetch_realtime_data_first_ticker_only
    (self : MarketDataFetcher) (w : World)
    (t : string) (ts : list string) (start_date end_date interval : string) :
  tickers self = t :: ts ->
  outcome (fetch_realtime_data self w)
  = yahoo w (List.length (yahoo_calls w)) (History t "1d" "1m") /\
  yahoo_calls (world (fetch_realtime_data self w))
  = yahoo_calls w ++ [History t "1d" "1m"] /\
  yahoo_calls (world (fetch_historical_data self start_date end_date
                        interval w))
  = yahoo_calls w ++ [Download (t :: ts) start_date end_date interval].
Proof.
  intros H.
  unfold fetch_realtime_data, fetch_historical_data, bind, getitem, request.
  rewrite H. cbn [nth_error ret].
  destruct (yahoo w (List.length (yahoo_calls w)) (History t "1d" "1m"));
    destruct (yahoo w (List.length (yahoo_calls w))
                (Download (t :: ts) start_date end_date interval));
    repeat split.
Qed.

Lemma fetch_realtime_data_first_ticker_only_witness :
  let self := MarketDataFetcher_init ["BZ=F"; "CL=F"] in
  let w := Cases.yahoo_world Cases.yahoo_up in
  outcome (fetch_realtime_data self w) = Ok Cases.frame /\
  yahoo_calls (world (fetch_realtime_data self w))
  = [History "BZ=F" "1d" "1m"] /\
  yahoo_calls (world (fetch_historical_data self "2023-01-01" "2023-12-31"
                        default_interval w))
  = [Download ["BZ=F"; "CL=F"] "2023-01-01" "2023-12-31" "1d"].
Proof.
  exact (fetch_realtime_data_first_ticker_only
           (MarketDataFetcher_init ["BZ=F"; "CL=F"])
           (Cases.yahoo_world Cases.yahoo_up)
           "BZ=F" ["CL=F"] "2023-01-01" "2023-12-31" default_interval
           eq_refl).
Defined.

End MarketFacts.

(* ================================================================== *)
(** * The application *)
(* ================================================================== *)

Module ApplicationFacts.
Import Application.

(** A comprehension over an effect-free function is a [map]. *)
Lemma comprehension_analyze {W : Type}
    (self : SentimentAnalyzer) (l : list Backtesting.Article) (w : W) :
  comprehension
    (fun article => analyze_sentiment self (Backtesting.title article)) l w
  = (Ok (map (fun article =>
                sentiment_pipeline self (Backtesting.title article)) l),
     w).
Proof.
  induction l as [ | a rest IH ]; [ reflexivity | ].
  cbn [comprehension map]. unfold bind at 1.
  unfold analyze_sentiment at 1, ret at 1.
  unfold bind at 1. rewrite IH. reflexivity.
Qed.

(** [main], case by case on what the two constructors, Yahoo and the news
    service answer. *)
Lemma main_locals_cases (config : Config) (lib : Libraries) (w : World) :
  let asked_market :=
    {| MarketData.yahoo := MarketData.yahoo (market w);
       MarketData.yahoo_calls :=
         MarketData.yahoo_calls (market w) ++ [brent_download] |} in
  let after_download :=
    {| market := asked_market; news := news w; desk := desk w |} in
  let after_news :=
    {| market := asked_market;
       news := Backtest.served (news w);
       desk := desk w |} in
  main_locals config lib w =
  match pipeline lib "sentiment-analysis" default_model_name with
  | Raised e => (Raised e, w)
  | Ok loaded =>
      match REST lib (ALPACA_API_KEY config) (ALPACA_SECRET_KEY config)
              Execution.default_base_url "v2"
      with
      | Raised e => (Raised e, w)
      | Ok client =>
          match MarketData.yahoo (market w)
                  (List.length (MarketData.yahoo_calls (market w)))
                  brent_download
          with
          | Raised e => (Raised e, after_download)
          | Ok historical_data =>
              match Backtesting.news_service (news w)
                      (Backtesting.news_served (news w)) (brent_news config)
              with
              | Raised e => (Raised e, after_news)
              | Ok all_articles =>
                  (Ok (historical_data,
                       Backtesting.articles all_articles,
                       map (fun article => loaded (Backtesting.title article))
                           (Backtesting.articles all_articles)),
                   after_news)
              end
          end
      end
  end.
Proof.
  cbv zeta.
  unfold main_locals, new_SentimentAnalyzer, new_TradeExecutor, library,
    on_market, on_news,
    MarketData.fetch_historical_data, MarketData.request,
    Backtesting.fetch_news, Backtesting.get_everything,
    brent_download, brent_news, Backtest.served, bind, ret.
  cbn [MarketData.tickers MarketData.MarketDataFetcher_init
       Backtesting.newsapi Backtesting.NewsFetcher_init
       Backtesting.client_key].
  change MarketData.default_interval with "1d".
  destruct (pipeline lib _ _) as [loaded | e]; [ | reflexivity ].
  destruct (REST lib _ _ _ _) as [client | e]; [ | reflexivity ].
  destruct (MarketData.yahoo (market w) _ _) as [df | e]; [ | reflexivity ].
  cbn [market news desk].
  destruct (Backtesting.news_service (news w) _ _) as [resp | e];
    [ | reflexivity ].
  rewrite comprehension_analyze. reflexivity.
Qed.

(** [main] ends as its body does. *)
Lemma main_cases (config : Config) (lib : Libraries) (w : World) :
  main config lib w =
  match main_locals config lib w with
  | (Ok _, w') => (Ok tt, w')
  | (Raised e, w') => (Raised e, w')
  end.
Proof. reflexivity. Qed.

(** X12: [main] never trades.  Whatever the constructors, Yahoo and the
    news service answer, it sends nothing to the broker, prints nothing,
    leaves the broker's book alone and creates no order in the backtest
    engine. *)
Theorem main_never_trades (config : Config) (lib : Libraries) (w : World) :
  desk (world (main config lib w)) = desk w /\
  Backtesting.orders (news (world (main config lib w)))
  = Backtesting.orders (news w).
Proof.
  rewrite main_cases, main_locals_cases. cbv zeta.
  destruct (pipeline lib _ _) as [loaded | e]; [ | split; reflexivity ].
  destruct (REST lib _ _ _ _) as [client | e]; [ | split; reflexivity ].
  destruct (MarketData.yahoo (market w) _ _) as [df | e];
    [ | split; reflexivity ].
  destruct (Backtesting.news_service (news w) _ _) as [resp | e];
    split; reflexivity.
Qed.



(** X20: [main] builds its objects before it asks for anything.  When the
    model cannot be loaded, or when it can but the REST client refuses the
    credentials, [main] raises that exception and has contacted neither
    Yahoo nor the news service. *)
Theorem main_fails_before_any_request (config : Config) (lib : Libraries)
    (w : World) (e : exn) :
  pipeline lib "sentiment-analysis" "ProsusAI/finbert" = Raised e \/
  ((exists loaded,
      pipeline lib "sentiment-analysis" "ProsusAI/finbert" = Ok loaded) /\
   REST lib (ALPACA_API_KEY config) (ALPACA_SECRET_KEY config)
     "https://paper-api.alpaca.markets" "v2" = Raised e) ->
  main config lib w = (Raised e, w).
Proof.
  rewrite main_cases, main_locals_cases. cbv zeta.
  change default_model_name with "ProsusAI/finbert".
  change Execution.default_base_url with "https://paper-api.alpaca.markets".
  intros [Hload | ((loaded & Hload) & Hrest)]; rewrite Hload.
  - reflexivity.
  - rewrite Hrest. reflexivity.
Qed.

(** The Alpaca key was left empty. *)
Lemma main_fails_before_any_request_witness :
  let w := Cases.application Cases.yahoo_up Scenario.rally_service in
  main Cases.keyless Cases.libraries w
  = (Raised (Exn ValueError
               "Key ID must be given to access Alpaca trade API"), w).
Proof.
  refine (main_fails_before_any_request Cases.keyless Cases.libraries
            (Cases.application Cases.yahoo_up Scenario.rally_service) _
            (or_intror (conj (ex_intro _ Scenario.headlines eq_refl)
                             eq_refl))).
Defined.

End ApplicationFacts.

(* ================================================================== *)
(** * More on the executor *)
(* ================================================================== *)

Module ExecutionMore.
Import Execution Desk ExecutionFacts.

(** X16: every call [place_order] makes to the broker is a submission of
    its five arguments with no [client_order_id], whether it returns an
    order, returns [None] or lets an exception through.  It makes one for
    its last POST and one more for each 429 or 504 reply the client retries,
    and never a status query or a cancellation. *)
Theorem place_order_only_submits (self : TradeExecutor)
    (symbol : string) (qty : Z) (side type time_in_force : string)
    (w : World) :
  calls (world (place_order self symbol qty side type time_in_force w))
  = calls w
    ++ repeat (SubmitOrder
                 {| symbol := symbol; qty := qty; side := side;
                    type := type; time_in_force := time_in_force;
                    client_order_id := None |})
         (S (List.length (hd [] (gateway w)))).
Proof. apply place_order_calls. Qed.

(** X17: [place_order] prints exactly when it returns [None], and what it
    prints is the message of the exception the client raised.  When the
    client's call raises an [Exception] [e], [place_order] returns [None]
    and adds the one line ["Error placing order: "] followed by [str(e)];
    it returns [None] in no other case; and when it returns an order or
    lets an exception through it prints nothing. *)
Theorem place_order_prints_iff_None (self : TradeExecutor)
    (symbol : string) (qty : Z) (side type time_in_force : string)
    (w : World) :
  let run := place_order self symbol qty side type time_in_force w in
  let call :=
    submit_order (api self) (sent symbol qty side type time_in_force) w in
  (forall e,
     outcome call = Raised e ->
     derives_from_Exception (exn_type e) = true ->
     outcome run = Ok None /\
     stdout (world run)
     = stdout w ++ [("Error placing order: " ++ exn_args e)%string]) /\
  (outcome run = Ok None ->
   exists e, outcome call = Raised e /\
             derives_from_Exception (exn_type e) = true) /\
  (outcome run <> Ok None -> stdout (world run) = stdout w).
Proof.
  cbv zeta. rewrite place_order_cases, submit_order_cases. cbv zeta.
  assert (Hout : forall created,
            stdout (received (sent symbol qty side type time_in_force)
                      created w) = stdout w).
  { intros created. cbn [received stdout]. unfold retried.
    destruct (repost_frame (sent symbol qty side type time_in_force)
                (hd [] (gateway w)) w) as (_ & _ & ->).
    reflexivity. }
  destruct (hd Acked (network w)) as [ | created e ].
  - split; [ discriminate | ].
    split; [ discriminate | intros _; apply Hout ].
  - destruct (derives_from_Exception (exn_type e)) eqn:Hexc.
    + split; [ | split ].
      * intros e' He' _. injection He' as <-.
        split; [ reflexivity | ].
        cbn [world snd print stdout]. rewrite Hout. reflexivity.
      * intros _. exists e. split; [ reflexivity | exact Hexc ].
      * intros H. contradiction H. reflexivity.
    + split; [ | split ].
      * intros e' He' Hexc'. injection He' as <-. congruence.
      * discriminate.
      * intros _. apply Hout.
Qed.

(** X18: [place_order] never removes or changes an order of the broker's
    book: the book before is a prefix of the book after.  The orders added
    were all made from the arguments of the call, there is at most one per
    POST, and an order [place_order] returns is the last of them. *)
Theorem place_order_keeps_the_book (self : TradeExecutor)
    (symbol : string) (qty : Z) (side type time_in_force : string)
    (w : World) :
  let run := place_order self symbol qty side type time_in_force w in
  exists new,
    book (world run) = book w ++ new /\
    Forall (fun o => request o = sent symbol qty side type time_in_force)
           new /\
    (List.length new <= S (List.length (hd [] (gateway w))))%nat /\
    (forall o, outcome run = Ok (Some o) ->
               exists earlier, new = earlier ++ [o]).
Proof. apply place_order_book. Qed.

(** One call can leave two live orders: the first POST is answered 504
    after the broker has created the order, the client posts again and the
    second POST is acknowledged. *)
Lemma one_call_two_orders :
  let w := Cases.congested [GatewayTimeout true] Acked in
  let r := sent "BNO" 10 "buy" "market" "gtc" in
  let run := place_order Scenario.executor "BNO" 10 "buy" "market" "gtc" w in
  outcome run = Ok (Some {| id := 1; request := r |}) /\
  calls (world run) = [SubmitOrder r; SubmitOrder r] /\
  book (world run) = [ {| id := 0; request := r |};
                       {| id := 1; request := r |} ].
Proof. repeat split. Qed.

End ExecutionMore.
